(** * Scanfil2 [parser.py]: HTML test report to XML conversion

    A shallow embedding of [src/parser.py] and the properties of its
    conversion, validation and archiving pipeline.

    Conventions of the embedding.
    - A Python [str] is a [string]; a character stands for its code point,
      so the text covered is the code points below 256.
    - A Python [dict] with string keys is a [gmap string string].
    - A Python [float] is a binary64 number, a [spec_float] of the
      Standard Library with [prec = 53] and [emax = 1024]; its operations
      are those of [SpecFloat], which round to nearest, ties to even.
    - A Python call that may raise returns a [PyResult]; what the source
      catches is caught in the embedding, what it lets through is a
      [Raise] of the embedding.
    - The file system, the log and the order of the system calls are an
      explicit [World] threaded through [main].
    - [main] is modelled up to the [ExitCode] that it returns or the
      exception that it lets through; the exit status that [exit(exit_code)]
      gives to the process is not part of the embedding. *)

From Stdlib Require Import ZArith Ascii String List Lia Bool.
From Stdlib Require Import Floats.SpecFloat.
From stdpp Require Import gmap strings list fin_maps.

Local Open Scope string_scope.
Local Open Scope Z_scope.
#[local] Set Warnings "-register-all".

(** ** Python results and exceptions *)

(** The exception classes that the standard-library calls of [parser.py]
    can raise. *)
Inductive PyExc : Type :=
  | IndexError
  | ValueError
  | KeyError
  | OverflowError
  | OSError
  | PermissionError
  | FileNotFoundError
  | FileExistsError
  | IsADirectoryError
  | NotADirectoryError
  | UnicodeDecodeError
  | ShutilError
  | ExpatError.

#[global] Instance PyExc_eq_dec : EqDecision PyExc.
Proof. solve_decision. Defined.

(** [isinstance(e, OSError)]: [PermissionError], [FileNotFoundError],
    [FileExistsError], [IsADirectoryError] and [NotADirectoryError] derive
    from [OSError], and so does [shutil.Error]. *)
Definition is_OSError (e : PyExc) : bool :=
  match e with
  | OSError | PermissionError | FileNotFoundError | FileExistsError
  | IsADirectoryError | NotADirectoryError | ShutilError => true
  | _ => false
  end.

(** [isinstance(e, ValueError)]: [UnicodeDecodeError] derives from it. *)
Definition is_ValueError (e : PyExc) : bool :=
  match e with
  | ValueError | UnicodeDecodeError => true
  | _ => false
  end.

Inductive PyResult (A : Type) : Type :=
  | Ret (a : A)
  | Raise (e : PyExc).
Arguments Ret {A} a.
Arguments Raise {A} e.

Definition py_bind {A B} (r : PyResult A) (k : A -> PyResult B) : PyResult B :=
  match r with
  | Ret a => k a
  | Raise e => Raise e
  end.

(** ** Python [str] methods *)

Module PyStr.

Definition code (c : ascii) : Z := Z.of_N (N_of_ascii c).

(** [str.isspace] on one character, which is what [str.split()],
    [str.strip()] and the [\s] of [re] use: TAB to CR, FS to US, space,
    NEL and NBSP. *)
Definition is_space (c : ascii) : bool :=
  let n := code c in
  ((9 <=? n) && (n <=? 13)) || ((28 <=? n) && (n <=? 32))
  || (n =? 133) || (n =? 160).

(** The [\d] of [re] below code point 256: the ASCII digits. *)
Definition is_digit (c : ascii) : bool :=
  let n := code c in (48 <=? n) && (n <=? 57).

Definition digit_val (c : ascii) : Z := code c - 48.

Fixpoint lstrip (s : string) : string :=
  match s with
  | EmptyString => EmptyString
  | String c s' => if is_space c then lstrip s' else s
  end.

Fixpoint rstrip (s : string) : string :=
  match s with
  | EmptyString => EmptyString
  | String c s' =>
      match rstrip s' with
      | EmptyString => if is_space c then EmptyString else String c EmptyString
      | r => String c r
      end
  end.

(** [s.strip()] *)
Definition strip (s : string) : string := rstrip (lstrip s).

(** The text that a file opened in text mode gives for the decoded content
    [s]: with the default [newline=None], CR LF and a lone CR are read as
    LF. [after_cr] tells that the character before was a CR. *)
Fixpoint newlines_go (after_cr : bool) (s : string) : string :=
  match s with
  | EmptyString => EmptyString
  | String c s' =>
      if Ascii.eqb c "013" then String "010" (newlines_go true s')
      else if Ascii.eqb c "010" && after_cr then newlines_go false s'
      else String c (newlines_go false s')
  end.

Definition universal_newlines (s : string) : string := newlines_go false s.

(** [s.split()]: the maximal runs of characters that are not white space.
    [cur] is the run being read, reversed. *)
Fixpoint split_go (cur : string) (s : string) : list string :=
  match s with
  | EmptyString =>
      match cur with
      | EmptyString => []
      | _ => [String.rev cur]
      end
  | String c s' =>
      if is_space c then
        match cur with
        | EmptyString => split_go EmptyString s'
        | _ => String.rev cur :: split_go EmptyString s'
        end
      else split_go (String c cur) s'
  end.

Definition split (s : string) : list string := split_go EmptyString s.

(** [s.replace(old, new)] for a one-character [old]. *)
Fixpoint replace (old : ascii) (new : string) (s : string) : string :=
  match s with
  | EmptyString => EmptyString
  | String c s' =>
      if Ascii.eqb c old then new +:+ replace old new s'
      else String c (replace old new s')
  end.

(** [sub in s] *)
Fixpoint contains (sub : string) (s : string) : bool :=
  String.prefix sub s ||
  match s with
  | EmptyString => false
  | String _ s' => contains sub s'
  end.

(** [l[0]] and [l[-1]] on a list. *)
Definition first {A} (l : list A) : PyResult A :=
  match l with
  | [] => Raise IndexError
  | x :: _ => Ret x
  end.

Definition last {A} (l : list A) : PyResult A :=
  match List.rev l with
  | [] => Raise IndexError
  | x :: _ => Ret x
  end.

Definition is_empty (s : string) : bool :=
  match s with
  | EmptyString => true
  | _ => false
  end.

(** [s.rstrip(a)] for one character [a]. *)
Fixpoint rstrip_char (a : ascii) (s : string) : string :=
  match s with
  | EmptyString => EmptyString
  | String c s' =>
      match rstrip_char a s' with
      | EmptyString => if Ascii.eqb c a then EmptyString else String c EmptyString
      | r => String c r
      end
  end.

(** [s.startswith(a)] and [s.endswith(a)] for one character [a]. *)
Definition startswith_char (a : ascii) (s : string) : bool :=
  match s with
  | String c _ => Ascii.eqb c a
  | EmptyString => false
  end.

Fixpoint endswith_char (a : ascii) (s : string) : bool :=
  match s with
  | EmptyString => false
  | String c EmptyString => Ascii.eqb c a
  | String _ s' => endswith_char a s'
  end.

End PyStr.

(** The character [a] occurs in [s]. *)
Fixpoint has_char (a : ascii) (s : string) : bool :=
  match s with
  | EmptyString => false
  | String c s' => Ascii.eqb c a || has_char a s'
  end.



(** The text of a path from its components: [render false [a; b; c]] is
    [a/b/c] and [render true [a; b; c]] is [/a/b/c]; without components it
    is the current directory, written as the empty text, or the root. *)
Fixpoint render_rel (cs : list string) : string :=
  match cs with
  | [] => EmptyString
  | [c] => c
  | c :: cs' => c +:+ "/" +:+ render_rel cs'
  end.

Definition render (absolute : bool) (cs : list string) : string :=
  (if absolute then "/" else "") +:+ render_rel cs.

(** ** [os.path] (the [posixpath] flavour) *)

Module PosixPath.

(** [(p[:i], p[i:])] for [i = p.rfind('/') + 1]. *)
Fixpoint split_at_last_sep (p : string) : string * string :=
  match p with
  | EmptyString => (EmptyString, EmptyString)
  | String c p' =>
      let '(h, t) := split_at_last_sep p' in
      if negb (PyStr.is_empty h) then (String c h, t)
      else if Ascii.eqb c "/" then (String c EmptyString, t)
      else (EmptyString, String c t)
  end.

(** [os.path.basename(p)] *)
Definition basename (p : string) : string := snd (split_at_last_sep p).

(** [os.path.dirname(p)]: the head up to the last slash, with its trailing
    slashes removed unless it consists of slashes only. *)
Definition dirname (p : string) : string :=
  let head := fst (split_at_last_sep p) in
  if negb (PyStr.is_empty head)
     && negb (PyStr.is_empty (PyStr.rstrip_char "/" head))
  then PyStr.rstrip_char "/" head
  else head.

(** [os.path.split(p)]: the same head and tail. *)
Definition split (p : string) : string * string := (dirname p, basename p).

(** [os.path.join(a, b)] *)
Definition join (a b : string) : string :=
  if PyStr.startswith_char "/" b then b
  else if PyStr.is_empty a || PyStr.endswith_char "/" a then a +:+ b
  else a +:+ "/" +:+ b.

(** The split of [genericpath._splitext] on a base name: [name] is cut at
    its last dot unless only dots precede that dot. [seen] tells whether a
    character other than a dot has been read. *)
Fixpoint splitext_name (seen : bool) (name : string) : string * string :=
  match name with
  | EmptyString => (EmptyString, EmptyString)
  | String c name' =>
      let '(root, ext) := splitext_name (seen || negb (Ascii.eqb c ".")) name' in
      if negb (PyStr.is_empty ext) then (String c root, ext)
      else if Ascii.eqb c "." && seen then (EmptyString, name)
      else (String c root, ext)
  end.

(** [os.path.splitext(p)] *)
Definition splitext (p : string) : string * string :=
  let '(h, t) := split_at_last_sep p in
  let '(root, ext) := splitext_name false t in
  (h +:+ root, ext).

(** The names of a path: the texts between its slashes that are not
    empty, in order. [cur] is the name being read, reversed. *)
Fixpoint names_go (cur : string) (p : string) : list string :=
  match p with
  | EmptyString =>
      match cur with
      | EmptyString => []
      | _ => [String.rev cur]
      end
  | String c p' =>
      if Ascii.eqb c "/" then
        match cur with
        | EmptyString => names_go EmptyString p'
        | _ => String.rev cur :: names_go EmptyString p'
        end
      else names_go (String c cur) p'
  end.

Definition names (p : string) : list string := names_go EmptyString p.

Definition is_absolute (p : string) : bool := PyStr.startswith_char "/" p.

(** One step of the walk along a path, from the directory whose
    components, last first, are [at]: [.] stays, [..] goes to the parent
    (the root is its own parent, and above the current directory the
    parents are named [..]), a name goes down. *)
Definition walk_step (absolute : bool) (at_ : list string) (name : string)
    : list string :=
  if String.eqb name "." then at_
  else if String.eqb name ".." then
    match at_ with
    | a :: at' => if String.eqb a ".." then name :: at_ else at'
    | [] => if absolute then [] else [name]
    end
  else name :: at_.

(** The place that a path names, as a text without [.], [..] inside, doubled
    or trailing slashes: what [os.path.normpath] computes, but for the
    current directory, written as the empty text, and for two leading
    slashes, read as one. *)
Definition place (p : string) : string :=
  render (is_absolute p)
    (List.rev (fold_left (walk_step (is_absolute p)) (names p) [])).

(** The path ends with [.] or [..]. *)
Definition ends_with_dot (p : string) : bool :=
  match List.last (names p) EmptyString with
  | "." | ".." => true
  | _ => false
  end.

End PosixPath.

(** ** [float(s)] and [timedelta(seconds=x)] *)

(** A Python [float]: a binary64 number. *)
Definition binary64 : Type := spec_float.

Definition prec : Z := 53.
Definition emax : Z := 1024.

(** The number that a finite literal denotes: the sign, the digits [m] and
    the power of ten [e], for [m * 10^e]. *)
Inductive Literal : Type :=
  | LFinite (neg : bool) (m : Z) (e : Z)
  | LInf (neg : bool)
  | LNan.

Module PyFloatParse.

(** The underscore rule of [float]: an underscore stands between two
    digits only. Returns the text without its underscores. *)
Fixpoint strip_underscores (prev : option ascii) (s : string) : option string :=
  match s with
  | EmptyString =>
      match prev with
      | Some "_"%char => None
      | _ => Some EmptyString
      end
  | String c s' =>
      if Ascii.eqb c "_" then
        match prev with
        | Some p => if PyStr.is_digit p then strip_underscores (Some c) s' else None
        | None => None
        end
      else
        match prev with
        | Some "_"%char =>
            if PyStr.is_digit c
            then String c <$> strip_underscores (Some c) s'
            else None
        | _ => String c <$> strip_underscores (Some c) s'
        end
  end.

(** Reads a run of digits: the value accumulated on [acc], the number of
    digits read and the rest. *)
Fixpoint read_digits (acc : Z) (n : Z) (s : string) : Z * Z * string :=
  match s with
  | String c s' =>
      if PyStr.is_digit c
      then read_digits (10 * acc + PyStr.digit_val c) (n + 1) s'
      else (acc, n, s)
  | EmptyString => (acc, n, s)
  end.

Definition read_sign (s : string) : bool * string :=
  match s with
  | String "-" s' => (true, s')
  | String "+" s' => (false, s')
  | _ => (false, s)
  end.

Definition lower (c : ascii) : ascii :=
  let n := PyStr.code c in
  if (65 <=? n) && (n <=? 90) then ascii_of_N (Z.to_N (n + 32)) else c.

Fixpoint lower_str (s : string) : string :=
  match s with
  | EmptyString => EmptyString
  | String c s' => String (lower c) (lower_str s')
  end.

(** The exponent part, which must reach the end of the text. *)
Definition read_exponent (s : string) : option Z :=
  match s with
  | EmptyString => Some 0
  | String c s' =>
      if Ascii.eqb (lower c) "e" then
        let '(neg, s1) := read_sign s' in
        let '(x, nx, s2) := read_digits 0 0 s1 in
        if (1 <=? nx) && PyStr.is_empty s2
        then Some (if neg then - x else x)
        else None
      else None
  end.

Definition parse_decimal (neg : bool) (s : string) : option Literal :=
  let '(i, ni, s1) := read_digits 0 0 s in
  let '(m, nf, s2) :=
    match s1 with
    | String "." s1' => read_digits i 0 s1'
    | _ => (i, 0, s1)
    end in
  if 1 <=? ni + nf then
    match read_exponent s2 with
    | Some x => Some (LFinite neg m (x - nf))
    | None => None
    end
  else None.

(** The literal that [float(s)] reads: [None] stands for the [ValueError]
    of a text that is not a number. *)
Definition literal (s : string) : option Literal :=
  match strip_underscores None (PyStr.strip s) with
  | None => None
  | Some t =>
      let '(neg, body) := read_sign t in
      let l := lower_str body in
      if String.eqb l "inf" || String.eqb l "infinity" then Some (LInf neg)
      else if String.eqb l "nan" then Some LNan
      else parse_decimal neg body
  end.

(** The binary64 number nearest to [m * 10^e], ties to even, for [0 <= m]:
    the correctly rounded conversion of [float]. A product that is an
    integer is rounded as it is; a quotient [m / 10^(-e)] is rounded from
    its integer quotient and the place of the remainder. A magnitude too
    large gives an infinity and one too small a zero, as [float] does. *)
Definition of_decimal (neg : bool) (m e : Z) : binary64 :=
  if m =? 0 then S754_zero neg
  else if 0 <=? e then
    binary_normalize prec emax (cond_Zopp neg (m * 10 ^ e)) 0 neg
  else
    let '(q, e', l) := SFdiv_core_binary prec emax m 0 (10 ^ (- e)) 0 in
    binary_round_aux prec emax neg q e' l.

Definition to_binary64 (l : Literal) : binary64 :=
  match l with
  | LFinite neg m e => of_decimal neg m e
  | LInf neg => S754_infinity neg
  | LNan => S754_nan
  end.

(** [float(s)] *)
Definition float (s : string) : option binary64 :=
  to_binary64 <$> literal s.

(** The binary64 number of an integer: [float(n)], exact below [2^53]. *)
Definition of_Z (n : Z) : binary64 := binary_normalize prec emax n 0 false.

End PyFloatParse.

(** ** [datetime] *)

Module PyTime.

Definition us_per_second : Z := 1000000.
Definition us_per_day : Z := 86400 * us_per_second.

(** [round(m / d)] to the nearest integer, ties to even, for [0 < d]. *)
Definition round_half_even (m d : Z) : Z :=
  let q := m / d in
  let r := m mod d in
  if 2 * r <? d then q
  else if d <? 2 * r then q + 1
  else if Z.even q then q else q + 1.

(** [modf] of the magnitude [m * 2^e]: its integral part, and its
    fractional part, which is a binary64 number again. *)
Definition modf (m : positive) (e : Z) : Z * binary64 :=
  if 0 <=? e then (Zpos m * 2 ^ e, S754_zero false)
  else (Zpos m / 2 ^ (- e),
        binary_normalize prec emax (Zpos m mod 2 ^ (- e)) e false).

(** The integer nearest to a binary64 number that is not negative, ties to
    even. *)
Definition nearest_even (x : binary64) : Z :=
  match x with
  | S754_finite _ m e =>
      if 0 <=? e then Zpos m * 2 ^ e else round_half_even (Zpos m) (2 ^ (- e))
  | _ => 0
  end.

(** [timedelta(seconds=x)], as its total number of microseconds. The
    constructor splits [x] with [modf], takes the integral part times
    [10^6] exactly, multiplies the fractional part by [1e6] in binary64 and
    rounds that product to the nearest microsecond, ties to even; it does
    the same on the magnitude of a negative [x]. A NaN raises [ValueError],
    an infinity or a magnitude above 999999999 days raises
    [OverflowError]. *)
Definition timedelta_seconds (x : binary64) : PyResult Z :=
  match x with
  | S754_nan => Raise ValueError
  | S754_infinity _ => Raise OverflowError
  | S754_zero _ => Ret 0
  | S754_finite s m e =>
      let '(intpart, fracpart) := modf m e in
      let dnum := SFmul prec emax (PyFloatParse.of_Z us_per_second) fracpart in
      let us := cond_Zopp s (intpart * us_per_second + nearest_even dnum) in
      if Z.abs (us / us_per_day) <=? 999999999 then Ret us
      else Raise OverflowError
  end.

Record datetime : Type := mk_datetime {
  year : Z; month : Z; day : Z;
  hour : Z; minute : Z; second : Z; microsecond : Z
}.

#[global] Instance datetime_eq_dec : EqDecision datetime.
Proof. solve_decision. Defined.

Definition is_leap (y : Z) : bool :=
  (y mod 4 =? 0) && (negb (y mod 100 =? 0) || (y mod 400 =? 0)).

Definition days_before_year (y : Z) : Z :=
  let y1 := y - 1 in y1 * 365 + y1 / 4 - y1 / 100 + y1 / 400.

Definition days_in_month (y m : Z) : Z :=
  if m =? 2 then (if is_leap y then 29 else 28)
  else if (m =? 4) || (m =? 6) || (m =? 9) || (m =? 11) then 30
  else 31.

(** [_DAYS_BEFORE_MONTH[m]] *)
Definition days_before_month_tbl (m : Z) : Z :=
  match m with
  | 1 => 0 | 2 => 31 | 3 => 59 | 4 => 90 | 5 => 120 | 6 => 151
  | 7 => 181 | 8 => 212 | 9 => 243 | 10 => 273 | 11 => 304 | 12 => 334
  | _ => 0
  end.

Definition days_before_month (y m : Z) : Z :=
  days_before_month_tbl m + (if (2 <? m) && is_leap y then 1 else 0).

(** [date(y, m, d).toordinal()] *)
Definition ymd2ord (y m d : Z) : Z :=
  days_before_year y + days_before_month y m + d.

(** [date.fromordinal(n)] as [(year, month, day)]. *)
Definition ord2ymd (n : Z) : Z * Z * Z :=
  let n := n - 1 in
  let n400 := n / 146097 in
  let n := n mod 146097 in
  let n100 := n / 36524 in
  let n := n mod 36524 in
  let n4 := n / 1461 in
  let n := n mod 1461 in
  let n1 := n / 365 in
  let n := n mod 365 in
  let y := n400 * 400 + 1 + n100 * 100 + n4 * 4 + n1 in
  if (n1 =? 4) || (n100 =? 4) then (y - 1, 12, 31)
  else
    let leapyear := (n1 =? 3) && (negb (n4 =? 24) || (n100 =? 3)) in
    let m := Z.shiftr (n + 50) 5 in
    let preceding :=
      days_before_month_tbl m + (if (2 <? m) && leapyear then 1 else 0) in
    if n <? preceding then
      let m' := m - 1 in
      let preceding' :=
        preceding - (days_in_month 1 m' + (if (m' =? 2) && leapyear then 1 else 0)) in
      (y, m', n - preceding' + 1)
    else (y, m, n - preceding + 1).

Definition max_ordinal : Z := 3652059.

(** The microseconds from the start of ordinal day 0. *)
Definition to_us (t : datetime) : Z :=
  (((ymd2ord (year t) (month t) (day t) * 24 + hour t) * 60 + minute t) * 60
   + second t) * us_per_second + microsecond t.

Definition of_us (u : Z) : datetime :=
  let '(y, m, d) := ord2ymd (u / us_per_day) in
  let r := u mod us_per_day in
  let s := r / us_per_second in
  mk_datetime y m d (s / 3600) (s mod 3600 / 60) (s mod 60) (r mod us_per_second).

(** [t + delta]: [OverflowError] when the date leaves years 1 to 9999. *)
Definition add (t : datetime) (delta : Z) : PyResult datetime :=
  let u := to_us t + delta in
  let ord := u / us_per_day in
  if (1 <=? ord) && (ord <=? max_ordinal) then Ret (of_us u)
  else Raise OverflowError.

(** [n] in [w] decimal digits, for [0 <= n < 10^w]. *)
Fixpoint zfill (w : nat) (n : Z) : string :=
  match w with
  | O => EmptyString
  | S w' =>
      zfill w' (n / 10)
      +:+ String (ascii_of_N (Z.to_N (48 + n mod 10))) EmptyString
  end.

(** [t.isoformat()] of a naive [datetime]: no offset is appended. *)
Definition isoformat (t : datetime) : string :=
  zfill 4 (year t) +:+ "-" +:+ zfill 2 (month t) +:+ "-" +:+ zfill 2 (day t)
  +:+ "T" +:+ zfill 2 (hour t) +:+ ":" +:+ zfill 2 (minute t)
  +:+ ":" +:+ zfill 2 (second t)
  +:+ (if microsecond t =? 0 then "" else "." +:+ zfill 6 (microsecond t)).

(** *** [datetime.strptime(s, '%Y %H:%M:%S')]

    [_strptime] turns the format into the regular expression
    [(?P<Y>\d\d\d\d)\s+(?P<H>2[0-3]|[0-1]\d|\d):(?P<M>[0-5]\d|\d):(?P<S>6[0-1]|[0-5]\d|\d)],
    matches it at the start of the text and refuses text left over. *)

(** One alternative of a group: its value and the rest of the text. *)
Definition Alt : Type := string -> option (Z * string).

(** Two digits, the first in [lo1..hi1] and the second in [lo2..hi2]. *)
Definition two_digits (lo1 hi1 lo2 hi2 : Z) : Alt := fun s =>
  match s with
  | String a (String b rest) =>
      if PyStr.is_digit a && PyStr.is_digit b
         && (lo1 <=? PyStr.digit_val a) && (PyStr.digit_val a <=? hi1)
         && (lo2 <=? PyStr.digit_val b) && (PyStr.digit_val b <=? hi2)
      then Some (10 * PyStr.digit_val a + PyStr.digit_val b, rest)
      else None
  | _ => None
  end.

Definition one_digit : Alt := fun s =>
  match s with
  | String a rest =>
      if PyStr.is_digit a then Some (PyStr.digit_val a, rest) else None
  | _ => None
  end.

Definition group_H : list Alt := [two_digits 2 2 0 3; two_digits 0 1 0 9; one_digit].
Definition group_M : list Alt := [two_digits 0 5 0 9; one_digit].
Definition group_S : list Alt := [two_digits 6 6 0 1; two_digits 0 5 0 9; one_digit].

(** The first alternative, in order, after which the rest of the
    expression [k] matches: the backtracking of [re]. *)
Fixpoint first_alt {R} (alts : list Alt) (s : string)
    (k : Z -> string -> option R) : option R :=
  match alts with
  | [] => None
  | a :: alts' =>
      match a s with
      | Some (v, rest) =>
          match k v rest with
          | Some r => Some r
          | None => first_alt alts' s k
          end
      | None => first_alt alts' s k
      end
  end.

Definition expect (c : ascii) {R} (s : string) (k : string -> option R) : option R :=
  match s with
  | String a rest => if Ascii.eqb a c then k rest else None
  | _ => None
  end.

(** [\d\d\d\d] *)
Definition four_digits (s : string) : option (Z * string) :=
  match s with
  | String a (String b (String c (String d rest))) =>
      if PyStr.is_digit a && PyStr.is_digit b && PyStr.is_digit c && PyStr.is_digit d
      then Some (((PyStr.digit_val a * 10 + PyStr.digit_val b) * 10
                  + PyStr.digit_val c) * 10 + PyStr.digit_val d, rest)
      else None
  | _ => None
  end.

(** [\s+]: what follows starts with a digit, so the greedy match never
    gives a character back. *)
Definition spaces1 (s : string) : option string :=
  match s with
  | String a rest => if PyStr.is_space a then Some (PyStr.lstrip rest) else None
  | _ => None
  end.

(** [format_regex.match(s)]: the four fields and the text left over. *)
Definition regex_match (s : string) : option (Z * Z * Z * Z * string) :=
  match four_digits s with
  | None => None
  | Some (y, s1) =>
      match spaces1 s1 with
      | None => None
      | Some s2 =>
          first_alt group_H s2 (fun h s3 =>
            expect ":" s3 (fun s4 =>
              first_alt group_M s4 (fun m s5 =>
                expect ":" s5 (fun s6 =>
                  first_alt group_S s6 (fun sec s7 =>
                    Some (y, h, m, sec, s7))))))
      end
  end.

(** [strptime]: [None] stands for its [ValueError]: no match, text left
    over, year 0, or a second above 59 that [datetime] refuses. Month and
    day keep their default 1. *)
Definition strptime (s : string) : option datetime :=
  match regex_match s with
  | None => None
  | Some (y, h, m, sec, rest) =>
      if PyStr.is_empty rest && (1 <=? y) && (sec <=? 59)
      then Some (mk_datetime y 1 1 h m sec 0)
      else None
  end.

End PyTime.

(** ** The parsed HTML document ([bs4]) *)

Module Bs4.

(** A node of the tree that [BeautifulSoup(html, 'html.parser')] builds. *)
Inductive Node : Type :=
  | NavigableString (s : string)
  | Comment (s : string)
  | Tag (name : string) (contents : list Node).

(** [tag.descendants]: the nodes below a tag in document order. *)
Fixpoint descendants (n : Node) : list Node :=
  match n with
  | Tag _ cs => flat_map (fun c => c :: descendants c) cs
  | _ => []
  end.

Definition is_tag (name : string) (n : Node) : bool :=
  match n with
  | Tag nm _ => String.eqb nm name
  | _ => false
  end.

(** [tag.find_all(name)]: every descendant tag of that name, at any
    depth. *)
Definition find_all (name : string) (n : Node) : list Node :=
  List.filter (is_tag name) (descendants n).

(** [tag.text]: the strings below the tag, concatenated; comments are
    left out. *)
Fixpoint text (n : Node) : string :=
  match n with
  | NavigableString s => s
  | Comment _ => EmptyString
  | Tag _ cs => fold_right (fun c acc => text c +:+ acc) EmptyString cs
  end.

End Bs4.

(** ** The output tree ([xml.etree.ElementTree]) *)

Module ET.

Inductive Element : Type :=
  mk_element (tag : string) (attrib : list (string * string))
             (text : option string) (children : list Element).

Definition tag (e : Element) : string :=
  let 'mk_element t _ _ _ := e in t.
Definition attrib (e : Element) : list (string * string) :=
  let 'mk_element _ a _ _ := e in a.
Definition text (e : Element) : option string :=
  let 'mk_element _ _ x _ := e in x.
Definition children (e : Element) : list Element :=
  let 'mk_element _ _ _ c := e in c.

(** [ET.Element(tag, attrib)] *)
Definition new (t : string) (a : list (string * string)) : Element :=
  mk_element t a None [].

(** [ET.SubElement(parent, tag).text = txt], and [ET.SubElement(parent,
    tag)] alone for [txt = None]: the new element is appended to the
    children of [parent]. *)
Definition SubElement (parent : Element) (t : string) (txt : option string) : Element :=
  let 'mk_element pt pa px pc := parent in
  mk_element pt pa px (pc ++ [mk_element t [] txt []]).

End ET.

(** ** Logging *)

(** One call of [logging.error] or [logging.info]; for a message that ends
    with the text of a caught exception, the message up to it and the
    exception. *)
Inductive LogRecord : Type :=
  | LogError (msg : string)
  | LogErrorExc (msg : string) (e : PyExc)
  | LogInfo (msg : string).

(** ** [html_to_xml] *)

Module Convert.

(** The local variables of [html_to_xml] once the fields are parsed. *)
Record ReportRecord : Type := mk_record {
  station_id : string;
  serial_number : string;
  sequence_name : string;
  status : string;
  start_time : PyTime.datetime;
  end_time : PyTime.datetime
}.

(** Lines 76 to 80: the body of the loop over the rows. *)
Definition extract_row (data : gmap string string) (row : Bs4.Node)
    : gmap string string :=
  match Bs4.find_all "td" row with
  | [c0; c1] =>
      let header := PyStr.replace ":" "" (PyStr.strip (Bs4.text c0)) in
      <[header := PyStr.strip (Bs4.text c1)]> data
  | _ => data
  end.

(** Lines 73 to 80: the dictionary [data] after the loop. *)
Definition extract_data (soup : Bs4.Node) : gmap string string :=
  fold_left extract_row (Bs4.find_all "tr" soup) ∅.

(** [data.get(key, dflt)] *)
Definition get (data : gmap string string) (key dflt : string) : string :=
  default dflt (data !! key).

Definition required_fields : list string :=
  ["Station ID"; "Serial Number"; "Sequence Name"; "UUT Result"; "Date"; "Time"].

(** Lines 92 to 95: the first field of the list that is not a key of
    [data]. *)
Fixpoint first_missing (fields : list string) (data : gmap string string)
    : option string :=
  match fields with
  | [] => None
  | field :: rest =>
      match data !! field with
      | None => Some field
      | Some _ => first_missing rest data
      end
  end.

(** Every required field is a key of [data]. *)
Definition all_required (data : gmap string string) : Prop :=
  Forall (fun field => is_Some (data !! field)) required_fields.

Definition of_option {A} (e : PyExc) (o : option A) : PyResult A :=
  match o with
  | Some a => Ret a
  | None => Raise e
  end.

(** Line 101, the text given to [strptime]. *)
Definition composite (token time_str : string) : string :=
  token +:+ " " +:+ PyStr.replace "." ":" time_str.

(** Lines 99 to 102: the body of the [try]. *)
Definition parse_fields (data : gmap string string) (execution_time_str : string)
    : PyResult ReportRecord :=
  let uut_result := get data "UUT Result" "" in
  let date_str := get data "Date" "" in
  let time_str := get data "Time" "" in
  py_bind (of_option ValueError (PyFloatParse.float execution_time_str))
    (fun execution_time =>
  let status := if PyStr.contains "Passed" uut_result then "PASS" else "FAIL" in
  py_bind (PyStr.last (PyStr.split date_str)) (fun token =>
  py_bind (of_option ValueError (PyTime.strptime (composite token time_str)))
    (fun start_time =>
  py_bind (PyTime.timedelta_seconds execution_time) (fun delta =>
  py_bind (PyTime.add start_time delta) (fun end_time =>
  Ret (mk_record (get data "Station ID" "") (get data "Serial Number" "")
                 (get data "Sequence Name" "") status start_time end_time)))))).

(** Line 103: [except (ValueError, KeyError)]. *)
Definition caught (e : PyExc) : bool :=
  is_ValueError e || bool_decide (e = KeyError).

(** Lines 83 to 105: from the dictionary to the parsed fields. [Ret None]
    is the [return None] of the function, with what it logs. *)
Definition transform (data : gmap string string)
    : list LogRecord * PyResult (option ReportRecord) :=
  match PyStr.first (PyStr.split (get data "Execution Time" "0 seconds")) with
  | Raise e => ([], Raise e)
  | Ret execution_time_str =>
      match first_missing required_fields data with
      | Some field => ([LogError ("Missing '" +:+ field +:+ "'")], Ret None)
      | None =>
          match parse_fields data execution_time_str with
          | Ret r => ([], Ret (Some r))
          | Raise e =>
              if caught e
              then ([LogErrorExc "Error parsing date, time, or execution time: " e],
                    Ret None)
              else ([], Raise e)
          end
      end
  end.

Definition root_attrib : list (string * string) :=
  [("xmlns:xsi", "http://www.w3.org/2001/XMLSchema-instance");
   ("xmlns:xsd", "http://www.w3.org/2001/XMLSchema");
   ("Version", "2.0");
   ("TesterType", "KONE FCT");
   ("Testerlocation", "en-US")].

(** Lines 108 to 125. *)
Definition build_xml (r : ReportRecord) : ET.Element :=
  let root := ET.new "UGSTesterCom" root_attrib in
  let root := ET.SubElement root "Barcode" (Some (serial_number r)) in
  let root := ET.SubElement root "TesterName" (Some (station_id r)) in
  let root := ET.SubElement root "StationName" (Some (station_id r)) in
  let root := ET.SubElement root "Station" (Some (station_id r)) in
  let root := ET.SubElement root "TestProgram" (Some (sequence_name r)) in
  let root := ET.SubElement root "Status" (Some (status r)) in
  let root := ET.SubElement root "StartTime" (Some (PyTime.isoformat (start_time r))) in
  let root := ET.SubElement root "EndTime" (Some (PyTime.isoformat (end_time r))) in
  ET.SubElement root "TestSteps" None.

(** Lines 83 to 125: the tree that is handed to [prettify_xml]. *)
Definition to_tree (data : gmap string string)
    : list LogRecord * PyResult (option ET.Element) :=
  let '(l, r) := transform data in
  (l, py_bind r (fun o => Ret (build_xml <$> o))).

Section WithLibraries.

(** The library calls whose results the embedding does not look into:
    the HTML parser, and the three calls of [prettify_xml]. *)
Variable BeautifulSoup : string -> Bs4.Node.
Variable Document : Type.
Variable tostring : ET.Element -> string.
Variable parseString : string -> PyResult Document.
Variable toprettyxml : Document -> string -> string.

(** Lines 53 to 57. *)
Definition prettify_xml (element : ET.Element) : PyResult string :=
  let rough_string := tostring element in
  py_bind (parseString rough_string) (fun reparsed =>
  Ret (toprettyxml reparsed "  ")).

(** Lines 59 to 128. *)
Definition html_to_xml (html_content : string)
    : list LogRecord * PyResult (option string) :=
  let soup := BeautifulSoup html_content in
  let data := extract_data soup in
  let '(l, r) := to_tree data in
  (l, py_bind r (fun o =>
        match o with
        | None => Ret None
        | Some root => py_bind (prettify_xml root) (fun s => Ret (Some s))
        end)).

End WithLibraries.

End Convert.

(** ** The process: file system, log and [main] *)

(** [class ExitCode(Enum)] *)
Inductive ExitCode : Type :=
  | SUCCESS
  | CREATE_DIR_ERROR
  | READ_HTML_ERROR
  | PARSE_XML_ERROR
  | WRITE_XML_ERROR
  | ARCHIVE_ERROR.

#[global] Instance ExitCode_eq_dec : EqDecision ExitCode.
Proof. solve_decision. Defined.

(** [code.value] *)
Definition value (c : ExitCode) : Z :=
  match c with
  | SUCCESS => 0
  | CREATE_DIR_ERROR => 1
  | READ_HTML_ERROR => 2
  | PARSE_XML_ERROR => 3
  | WRITE_XML_ERROR => 4
  | ARCHIVE_ERROR => 5
  end.

(** [dir_for_archiv] *)
Definition dir_for_archiv : string := "arhiiv".

(** The [argparse.Namespace] that [parse_args] returns. *)
Record Namespace : Type := mk_args {
  dir1 : string;
  dir2 : string;
  archive : option string
}.

(** What [main] asks of the operating system, in the order asked;
    [EvConvert] marks the call of [html_to_xml]. *)
Inductive Event : Type :=
  | EvMakedirs (p : string)
  | EvOpenRead (p : string)
  | EvConvert
  | EvOpenWrite (p : string)
  | EvRemove (p : string)
  | EvMove (src dst : string).

#[global] Instance Event_eq_dec : EqDecision Event.
Proof. solve_decision. Defined.

(** The directories and the files (place to content) that exist, what has
    been logged and the calls made so far. A directory or a file is held
    under the text of its place ([PosixPath.place]): the spellings of one
    path are one entry. The root, the current directory and the directories
    above it are always there. There are no symbolic links. *)
Record World : Type := mk_world {
  dirs : gset string;
  files : gmap string string;
  log : list LogRecord;
  trace : list Event
}.

(** The failures that the file system imposes on a call for reasons the
    [World] does not hold (permissions, devices): [None] lets the call
    through. The first is asked at each [os.mkdir] that [os.makedirs]
    makes. *)
Record OS : Type := mk_os {
  mkdir_fault : string -> option PyExc;
  read_fault : string -> option PyExc;
  write_fault : string -> option PyExc;
  remove_fault : string -> option PyExc;
  move_fault : string -> string -> option PyExc
}.

(** A computation on the world that returns or raises. *)
Definition M (A : Type) : Type := World -> PyResult A * World.

Definition ret {A} (a : A) : M A := fun w => (Ret a, w).

Definition raise {A} (e : PyExc) : M A := fun w => (Raise e, w).

Definition bind {A B} (m : M A) (k : A -> M B) : M B := fun w =>
  match m w with
  | (Ret a, w') => k a w'
  | (Raise e, w') => (Raise e, w')
  end.

Notation "x <~ m ;; k" := (bind m (fun x => k))
  (at level 100, m at next level, right associativity).
Notation "m ;;; k" := (bind m (fun _ => k))
  (at level 100, right associativity).

(** [try: m except <handles>: h] *)
Definition try_except {A} (m : M A) (handles : PyExc -> bool) (h : PyExc -> M A) : M A :=
  fun w =>
    match m w with
    | (Ret a, w') => (Ret a, w')
    | (Raise e, w') => if handles e then h e w' else (Raise e, w')
    end.

(** The updates of the world. *)
Definition add_log (r : LogRecord) (w : World) : World :=
  mk_world (dirs w) (files w) (log w ++ [r]) (trace w).

Definition add_logs (l : list LogRecord) (w : World) : World :=
  mk_world (dirs w) (files w) (log w ++ l) (trace w).

Definition add_event (ev : Event) (w : World) : World :=
  mk_world (dirs w) (files w) (log w) (trace w ++ [ev]).

Definition add_dir (p : string) (w : World) : World :=
  mk_world ({[p]} ∪ dirs w) (files w) (log w) (trace w).

Definition set_files (fs : gmap string string) (w : World) : World :=
  mk_world (dirs w) fs (log w) (trace w).

(** [logging.error(...)] and [logging.info(...)] *)
Definition logging (r : LogRecord) : M unit := fun w => (Ret tt, add_log r w).

Definition emit (ev : Event) : M unit := fun w => (Ret tt, add_event ev w).

(** What is at the directory whose components, last first, are [at]. *)
Definition dir_at (w : World) (absolute : bool) (at_ : list string) : bool :=
  forallb (String.eqb "..") at_
  || bool_decide (render absolute (List.rev at_) ∈ dirs w).

Definition file_at (w : World) (absolute : bool) (at_ : list string) : option string :=
  files w !! render absolute (List.rev at_).

(** Where the walk along a path has come to, or the error that ends it. *)
Inductive Walk : Type :=
  | At (at_ : list string)
  | Lost (e : PyExc).

(** The walk through the names of a path: each of them must lead to a
    directory. A file on the way gives [NotADirectoryError], nothing on the
    way gives [FileNotFoundError]. *)
Fixpoint descend (w : World) (absolute : bool) (at_ : list string)
    (path : list string) : Walk :=
  match path with
  | [] => At at_
  | name :: rest =>
      let next := PosixPath.walk_step absolute at_ name in
      if dir_at w absolute next then descend w absolute next rest
      else if bool_decide (is_Some (file_at w absolute next))
      then Lost NotADirectoryError
      else Lost FileNotFoundError
  end.

(** The walk to the directory of the last name of [p], and to what [p]
    names: the directory reached when [p] has no name (the root) or ends
    with [.] or [..], the entry of the last name in its directory
    otherwise. The empty path names nothing. *)
Definition parent_of (w : World) (p : string) : Walk :=
  descend w (PosixPath.is_absolute p) [] (removelast (PosixPath.names p)).

Definition locate (w : World) (p : string) : Walk :=
  if PyStr.is_empty p then Lost FileNotFoundError
  else
    match parent_of w p with
    | Lost e => Lost e
    | At parent =>
        At (match PosixPath.names p with
            | [] => parent
            | _ => PosixPath.walk_step (PosixPath.is_absolute p) parent
                     (List.last (PosixPath.names p) EmptyString)
            end)
    end.

(** What a path names: a directory, a file with its content, or nothing,
    with the error of the system call that finds it so. *)
Inductive Stat : Type :=
  | SDir
  | SFile (content : string)
  | SMissing (e : PyExc).

(** [os.stat(p)], as far as the program looks at it. A path that ends with
    a slash, [.] or [..] must name a directory. *)
Definition stat (w : World) (p : string) : Stat :=
  match locate w p with
  | Lost e => SMissing e
  | At at_ =>
      if dir_at w (PosixPath.is_absolute p) at_ then SDir
      else
        match file_at w (PosixPath.is_absolute p) at_ with
        | Some content =>
            if PosixPath.ends_with_dot p || PyStr.endswith_char "/" p
            then SMissing NotADirectoryError
            else SFile content
        | None => SMissing FileNotFoundError
        end
  end.

(** [os.path.isdir(p)] *)
Definition is_dir (w : World) (p : string) : bool :=
  match stat w p with
  | SDir => true
  | _ => false
  end.

Definition exists_in (w : World) (p : string) : bool :=
  match stat w p with
  | SMissing _ => false
  | _ => true
  end.

(** [os.path.exists(p)] *)
Definition path_exists (p : string) : M bool := fun w => (Ret (exists_in w p), w).

(** The call of a function that logs and returns or raises. *)
Definition call {A} (f : list LogRecord * PyResult A) : M A := fun w =>
  (snd f, add_logs (fst f) w).

Section WithOS.

Variable os : OS.

(** The head and the tail that [os.makedirs] works with: those of
    [os.path.split], taken once more from the head when the name ends with
    a slash. *)
Definition split_name (name : string) : string * string :=
  let '(head, tail) := PosixPath.split name in
  if PyStr.is_empty tail then PosixPath.split head else (head, tail).

(** Whether a file can be written ([new_dir = false]) or a directory made
    at a path: [inl] gives the error of a path that is empty, whose
    directory is not there, or at which a directory is, or a file that
    cannot be replaced (for a new directory, any file; for a file, one
    named with a trailing slash). [inr] gives the place of the entry. *)
Definition creatable (new_dir : bool) (w : World) (p : string) : PyExc + string :=
  match locate w p with
  | Lost e => inl e
  | At at_ =>
      let absolute := PosixPath.is_absolute p in
      if dir_at w absolute at_
      then inl (if new_dir then FileExistsError else IsADirectoryError)
      else
        match file_at w absolute at_ with
        | Some _ =>
            if PosixPath.ends_with_dot p then inl NotADirectoryError
            else if new_dir then inl FileExistsError
            else if PyStr.endswith_char "/" p then inl IsADirectoryError
            else inr (render absolute (List.rev at_))
        | None =>
            if PosixPath.ends_with_dot p then inl FileNotFoundError
            else if negb new_dir && PyStr.endswith_char "/" p
            then inl IsADirectoryError
            else inr (render absolute (List.rev at_))
        end
  end.

(** [os.mkdir(p)]: it refuses a path at which something is, and a path
    whose directory is a file or is missing. *)
Definition mkdir (p : string) : M unit := fun w =>
  match mkdir_fault os p with
  | Some e => (Raise e, w)
  | None =>
      match creatable true w p with
      | inl e => (Raise e, w)
      | inr here => (Ret tt, add_dir here w)
      end
  end.

(** The body of [os.makedirs(name, exist_ok=True)]: the missing parents
    first, then the directory itself. The head is shorter than the name, so
    the calls end; [fuel] counts the calls that are left. *)
Fixpoint makedirs_rec (fuel : nat) (name : string) : M unit :=
  let '(head, tail) := split_name name in
  done <~
    (if negb (PyStr.is_empty head) && negb (PyStr.is_empty tail) then
       present <~ path_exists head ;;
       if present then ret false
       else
         (match fuel with
          | O => ret tt
          | S fuel' =>
              try_except (makedirs_rec fuel' head)
                (fun e => bool_decide (e = FileExistsError))
                (fun _ => ret tt)
          end) ;;;
         ret (String.eqb tail ".")
     else ret false) ;;
  if done then ret tt
  else
    try_except (mkdir name) is_OSError
      (fun e w => if is_dir w name then (Ret tt, w) else (Raise e, w)).

(** [os.makedirs(p, exist_ok=True)] *)
Definition makedirs (p : string) : M unit :=
  emit (EvMakedirs p) ;;; makedirs_rec (String.length p) p.

(** [open(p, 'r', encoding='utf-8').read()]: the content of the file, which
    the [World] holds decoded, with its line ends read as LF. *)
Definition open_read (p : string) : M string :=
  emit (EvOpenRead p) ;;;
  fun w =>
    match read_fault os p with
    | Some e => (Raise e, w)
    | None =>
        match stat w p with
        | SFile content => (Ret (PyStr.universal_newlines content), w)
        | SDir => (Raise IsADirectoryError, w)
        | SMissing e => (Raise e, w)
        end
    end.

(** [open(p, 'w', encoding='utf-8').write(content)] *)
Definition open_write (p content : string) : M unit :=
  emit (EvOpenWrite p) ;;;
  fun w =>
    match write_fault os p with
    | Some e => (Raise e, w)
    | None =>
        match creatable false w p with
        | inl e => (Raise e, w)
        | inr here => (Ret tt, set_files (<[here := content]> (files w)) w)
        end
    end.

(** [os.remove(p)] *)
Definition remove (p : string) : M unit :=
  emit (EvRemove p) ;;;
  fun w =>
    match remove_fault os p with
    | Some e => (Raise e, w)
    | None =>
        match stat w p with
        | SFile _ => (Ret tt, set_files (delete (PosixPath.place p) (files w)) w)
        | SDir => (Raise IsADirectoryError, w)
        | SMissing e => (Raise e, w)
        end
    end.

(** [shutil.move(src, dst)] of a file: into [dst], under the base name of
    [src] without its trailing slashes, when [dst] is a directory, refusing
    to replace what is there; onto [dst] otherwise. When the destination
    cannot be written, [shutil.copyfile] turns the [IsADirectoryError] of a
    destination that is not there into [FileNotFoundError]. [main] moves
    the file that it has read: a directory is not moved in the embedding,
    which raises [OSError] for one. *)
Definition move (src dst : string) : M unit :=
  emit (EvMove src dst) ;;;
  fun w =>
    match move_fault os src dst with
    | Some e => (Raise e, w)
    | None =>
        let into := is_dir w dst in
        let real_dst :=
          if into
          then PosixPath.join dst (PosixPath.basename (PyStr.rstrip_char "/" src))
          else dst in
        if into && exists_in w real_dst then (Raise ShutilError, w)
        else
          match stat w src with
          | SFile content =>
              match creatable false w real_dst with
              | inl e =>
                  (Raise (if bool_decide (e = IsADirectoryError) && negb (exists_in w real_dst)
                          then FileNotFoundError else e), w)
              | inr here =>
                  (Ret tt,
                   set_files (<[here := content]> (delete (PosixPath.place src) (files w))) w)
              end
          | SDir => (Raise OSError, w)
          | SMissing e => (Raise e, w)
          end
    end.

(** Lines 27 to 50. *)
Definition read_html_file (file_path : string) : M (option string) :=
  try_except
    (raw <~ open_read file_path ;;
     let content := PyStr.strip raw in
     if PyStr.is_empty content then
       logging (LogError ("The HTML file " +:+ file_path +:+ " is empty.")) ;;;
       ret None
     else ret (Some content))
    (fun e => bool_decide (e = FileNotFoundError))
    (fun e => logging (LogErrorExc "Error reading HTML file: " e) ;;; ret None).

Variable BeautifulSoup : string -> Bs4.Node.
Variable Document : Type.
Variable tostring : ET.Element -> string.
Variable parseString : string -> PyResult Document.
Variable toprettyxml : Document -> string -> string.

Local Abbreviation html_to_xml :=
  (Convert.html_to_xml BeautifulSoup Document tostring parseString toprettyxml).

(** Lines 176 to 183 of [main]. A step that may [return] gives [Some] of
    the exit code that it returns and [None] to go on. *)
Definition create_output_dir (output_dir : string) : M (option ExitCode) :=
  present <~ path_exists output_dir ;;
  if negb present then
    try_except
      (makedirs output_dir ;;;
       logging (LogInfo ("Created directory: " +:+ output_dir)) ;;;
       ret None)
      is_OSError
      (fun e =>
         logging (LogErrorExc ("Failed to create directory " +:+ output_dir +:+ ": ") e) ;;;
         ret (Some CREATE_DIR_ERROR))
  else ret None.

(** Line 194 of [main]. *)
Definition convert (html_content : string) : M (option string) :=
  emit EvConvert ;;; call (html_to_xml html_content).

(** Lines 198 to 209 of [main]. *)
Definition write_output (output_xml_file xml_content : string) : M (option ExitCode) :=
  present <~ path_exists output_xml_file ;;
  (if present
   then logging (LogInfo ("The file " +:+ output_xml_file
                          +:+ " already exists and will be overwritten."))
   else ret tt) ;;;
  try_except
    (open_write output_xml_file xml_content ;;;
     logging (LogInfo ("XML written to " +:+ output_xml_file)) ;;;
     ret None)
    (fun e => bool_decide (e = PermissionError))
    (fun e =>
       logging (LogErrorExc ("Permission denied for writing "
                             +:+ output_xml_file +:+ ": ") e) ;;;
       ret (Some WRITE_XML_ERROR)).

(** Line 212 of [main]: [args.archive or os.path.join(...)]. *)
Definition archive_dir_of (args : Namespace) : string :=
  let derived :=
    PosixPath.join (PosixPath.dirname (PosixPath.dirname (dir1 args))) dir_for_archiv in
  match archive args with
  | Some a => if PyStr.is_empty a then derived else a
  | None => derived
  end.

(** Lines 213 to 219 of [main]. *)
Definition create_archive_dir (archive_dir : string) : M (option ExitCode) :=
  present <~ path_exists archive_dir ;;
  if negb present then
    try_except
      (makedirs archive_dir ;;;
       logging (LogInfo ("Created archive directory: " +:+ archive_dir)) ;;;
       ret None)
      is_OSError
      (fun e =>
         logging (LogErrorExc ("Failed to create archive directory "
                               +:+ archive_dir +:+ ": ") e) ;;;
         ret (Some CREATE_DIR_ERROR))
  else ret None.

(** Lines 222 to 234 of [main]. *)
Definition move_to_archive (src archive_dir : string) : M ExitCode :=
  let target_file_path := PosixPath.join archive_dir (PosixPath.basename src) in
  try_except
    (present <~ path_exists target_file_path ;;
     (if present then
        remove target_file_path ;;;
        logging (LogInfo ("Overwriting existing archive file: " +:+ target_file_path))
      else ret tt) ;;;
     move src archive_dir ;;;
     logging (LogInfo ("Archived " +:+ src +:+ " to " +:+ archive_dir)) ;;;
     ret SUCCESS)
    (fun e => bool_decide (e = PermissionError) || bool_decide (e = FileNotFoundError))
    (fun e =>
       logging (LogErrorExc ("Failed to archive HTML file " +:+ src +:+ ": ") e) ;;;
       ret ARCHIVE_ERROR).

(** [output_xml_file], lines 186 and 187. *)
Definition output_xml_file_of (args : Namespace) : string :=
  let base_name := fst (PosixPath.splitext (PosixPath.basename (dir1 args))) in
  PosixPath.join (dir2 args) (base_name +:+ ".xml").

(** Lines 165 to 234: the steps above in the order of the source. *)
Definition main (args : Namespace) : M ExitCode :=
  early <~ create_output_dir (dir2 args) ;;
  match early with
  | Some c => ret c
  | None =>
  let output_xml_file := output_xml_file_of args in
  html_content <~ read_html_file (dir1 args) ;;
  match html_content with
  | None => ret READ_HTML_ERROR
  | Some html =>
  xml_content <~ convert html ;;
  match xml_content with
  | None => ret PARSE_XML_ERROR
  | Some xml =>
  early <~ write_output output_xml_file xml ;;
  match early with
  | Some c => ret c
  | None =>
  let archive_dir := archive_dir_of args in
  early <~ create_archive_dir archive_dir ;;
  match early with
  | Some c => ret c
  | None => move_to_archive (dir1 args) archive_dir
  end end end end end.

End WithOS.

(** ** Definitions used by the statements *)

(** The check that the first of January of year [y] survives the round
    trip through its ordinal and that the ordinal is in range. *)
Definition jan1_ok (y : Z) : bool :=
  let o := PyTime.ymd2ord y 1 1 in
  let '(y', m', d') := PyTime.ord2ymd o in
  (y' =? y) && (m' =? 1) && (d' =? 1) && (1 <=? o) && (o <=? PyTime.max_ordinal).

(** A [datetime] as [strptime] with ['%Y %H:%M:%S'] gives it: a time of
    day on the first of January of a year from 1 to 9999. *)
Definition is_year_and_time (t : PyTime.datetime) : Prop :=
  1 <= PyTime.year t <= 9999 /\ PyTime.month t = 1 /\ PyTime.day t = 1
  /\ 0 <= PyTime.hour t <= 23 /\ 0 <= PyTime.minute t <= 59
  /\ 0 <= PyTime.second t <= 59 /\ PyTime.microsecond t = 0.

(** A dictionary with the six required fields, for a given Date and
    Time. *)
Definition report_fields (date_str time_str : string) : gmap string string :=
  <["Station ID" := "S1"]> (<["Serial Number" := "SN-0001"]>
  (<["Sequence Name" := "FCT sequence"]> (<["UUT Result" := "Passed"]>
  (<["Date" := date_str]> (<["Time" := time_str]> ∅))))).

(** The dictionary of the example of the specification: a weekday and a
    full date in Date, and 45 seconds of execution. *)
Definition full_date_fields : gmap string string :=
  <["Execution Time" := "45 seconds"]> (report_fields "Friday 2024-05-01" "13.05.00").

(** The same report with a Date that ends with the year. *)
Definition year_fields : gmap string string :=
  <["Execution Time" := "45 seconds"]> (report_fields "Friday 2024" "13.05.00").




(** What [year_fields] converts to. *)
Definition year_record : Convert.ReportRecord :=
  Convert.mk_record "S1" "SN-0001" "FCT sequence" "PASS"
    (PyTime.mk_datetime 2024 1 1 13 5 0 0) (PyTime.mk_datetime 2024 1 1 13 5 45 0).



(** A step ends the run with the exit code [code] or with an exception. *)
Definition ended_with (code : ExitCode) (r : PyResult ExitCode) : Prop :=
  r = Ret code \/ exists e, r = Raise e.

(** From [w] to [w'] only directories are new, and each of them is at
    the place of a prefix of [p], where no file is. *)
Definition grown (p : string) (w w' : World) : Prop :=
  files w' = files w /\ log w' = log w /\ trace w' = trace w
  /\ dirs w ⊆ dirs w'
  /\ forall q, q ∈ dirs w' ->
       q ∈ dirs w
       \/ (files w !! q = None
           /\ exists h, String.prefix h p = true /\ q = PosixPath.place h).

(** How a step ends the run: a step that returns an exit code or raises,
    and a step that gives [None] or raises. *)
Definition returned (r1 : PyResult (option ExitCode)) (r : PyResult ExitCode) : Prop :=
  (exists c, r1 = Ret (Some c) /\ r = Ret c) \/ (exists e, r1 = Raise e /\ r = Raise e).

Definition gave_up {A} (r1 : PyResult (option A)) (code : ExitCode)
    (r : PyResult ExitCode) : Prop :=
  (r1 = Ret None /\ r = Ret code) \/ (exists e, r1 = Raise e /\ r = Raise e).

(** *** A sample installation, for the examples *)

(** A row of two cells and a document with one table. *)
Definition row (k v : string) : Bs4.Node :=
  Bs4.Tag "tr" [Bs4.Tag "td" [Bs4.NavigableString k];
                Bs4.Tag "td" [Bs4.NavigableString v]].

Definition document (rows : list Bs4.Node) : Bs4.Node :=
  Bs4.Tag "[document]" [Bs4.Tag "html" [Bs4.Tag "body" [Bs4.Tag "table" rows]]].

Definition sample_rows (date_str : string) : list Bs4.Node :=
  [row "Station ID:" " S1 "; row "Serial Number:" "SN-0001";
   row "Sequence Name:" "FCT sequence"; row "UUT Result:" "Passed";
   row "Date:" date_str; row "Time:" "13.05.00";
   row "Execution Time:" "45 seconds"].

(** Stand-ins for the libraries in the examples: a parser that gives the
    tree of the sample report with a given Date whatever the text, and a
    serialisation that writes the tag of the root. *)
Definition sample_parser (date_str : string) : string -> Bs4.Node :=
  fun _ => document (sample_rows date_str).

Definition sample_tostring (e : ET.Element) : string := "<" +:+ ET.tag e +:+ "/>".

Definition sample_parseString (s : string) : PyResult string := Ret s.

Definition sample_toprettyxml (doc indent : string) : string := doc.

(** An operating system that refuses the [os.mkdir] of [p] and one that
    refuses nothing. *)
Definition os_refusing (p : string) : OS :=
  mk_os (fun q => if String.eqb q p then Some PermissionError else None)
        (fun _ => None) (fun _ => None) (fun _ => None) (fun _ _ => None).

Definition os_ok : OS :=
  mk_os (fun _ => None) (fun _ => None) (fun _ => None) (fun _ => None)
        (fun _ _ => None).

(** A report in [/data/line1/reports], to be converted into [/out]. *)
Definition sample_args : Namespace :=
  mk_args "/data/line1/reports/r.html" "/out" None.

Definition sample_world : World :=
  mk_world ({["/out"]} ∪ {["/data"]} ∪ {["/data/line1"]} ∪ {["/data/line1/reports"]})
           {["/data/line1/reports/r.html" := " <html><table></table></html> "]}
           [] [].

(** A run with nothing on the disk. *)
Definition empty_world : World := mk_world ∅ ∅ [] [].


(** [main] with the stand-ins for the libraries. *)
Definition sample_main (os : OS) (date_str : string) (args : Namespace) : M ExitCode :=
  main os (sample_parser date_str) string sample_tostring sample_parseString
       sample_toprettyxml args.

(** *** The words of the specification, for comparison *)


(** Follows the words of the specification, for comparison with line 79:
    the text with a trailing colon removed. *)
Fixpoint strip_trailing_colon (s : string) : string :=
  match s with
  | EmptyString => EmptyString
  | String c EmptyString => if Ascii.eqb c ":" then EmptyString else s
  | String c s' => String c (strip_trailing_colon s')
  end.

(** Follows the words of the specification, for comparison with line 77:
    the cells that are children of the row. *)
Definition child_cells (r : Bs4.Node) : list Bs4.Node :=
  match r with
  | Bs4.Tag _ cs => List.filter (Bs4.is_tag "td") cs
  | _ => []
  end.

(** The key that a row of two cells sets, if it is one. *)
Definition row_key (r : Bs4.Node) : option string :=
  match Bs4.find_all "td" r with
  | [c0; _] => Some (PyStr.replace ":" "" (PyStr.strip (Bs4.text c0)))
  | _ => None
  end.

(** A row whose header has a colon inside, and a row whose second cell
    holds a table of its own. *)
Definition inner_colon_row : Bs4.Node := row "Start:Time" "x".

Definition nested_row : Bs4.Node :=
  Bs4.Tag "tr" [Bs4.Tag "td" [Bs4.NavigableString "Limits:"];
                Bs4.Tag "td" [Bs4.Tag "table" [row "low" "1"]]].

(** * Properties *)

(** ** The library models on examples *)

Example split_ex : PyStr.split "  Friday   2024 " = ["Friday"; "2024"].
Proof. reflexivity. Qed.
Example strip_ex : PyStr.strip "  a b  " = "a b".
Proof. reflexivity. Qed.
Example dirname_ex : PosixPath.dirname "/a/b/c/f.html" = "/a/b/c".
Proof. reflexivity. Qed.
Example dirname_ex2 : PosixPath.dirname "//f.html" = "//".
Proof. reflexivity. Qed.
Example dirname_ex3 : PosixPath.dirname "a//f.html" = "a".
Proof. reflexivity. Qed.
Example splitext_ex : PosixPath.splitext "/a/b.c/.f.tar.html" = ("/a/b.c/.f.tar", ".html").
Proof. reflexivity. Qed.
Example splitext_ex2 : PosixPath.splitext "/a/b.c/..f" = ("/a/b.c/..f", "").
Proof. reflexivity. Qed.
Example splitext_ex3 : PosixPath.splitext "/a/b.c/f" = ("/a/b.c/f", "").
Proof. reflexivity. Qed.
Example splitext_ex4 : PosixPath.splitext "f.html" = ("f", ".html").
Proof. reflexivity. Qed.
Example float_ex1 :
  PyFloatParse.float "45" = Some (S754_finite false 6333186975989760 (-47)).
Proof. reflexivity. Qed.
Example float_ex2 : PyFloatParse.literal "-1_0.25e+3" = Some (LFinite true 1025 1).
Proof. reflexivity. Qed.
Example float_ex3 : PyFloatParse.float "1__0" = None.
Proof. reflexivity. Qed.
Example float_ex4 : PyFloatParse.float "-Infinity" = Some (S754_infinity true).
Proof. reflexivity. Qed.
Example float_ex8 :
  PyFloatParse.float "0.1" = Some (S754_finite false 7205759403792794 (-56)).
Proof. reflexivity. Qed.
Example float_ex9 :
  PyFloatParse.float "9007199254740993" = Some (S754_finite false 4503599627370496 1).
Proof. reflexivity. Qed.
Example float_ex10 : PyFloatParse.float "1e400" = Some (S754_infinity false).
Proof. reflexivity. Qed.
Example float_ex11 :
  PyFloatParse.float "5e-324" = Some (S754_finite false 1 (-1074)).
Proof. reflexivity. Qed.
Example timedelta_ex1 :
  PyTime.timedelta_seconds <$> PyFloatParse.float "45" = Some (Ret 45000000).
Proof. reflexivity. Qed.
Example timedelta_ex2 :
  PyTime.timedelta_seconds <$> PyFloatParse.float "1.0000005" = Some (Ret 1000001).
Proof. reflexivity. Qed.
Example timedelta_ex3 :
  PyTime.timedelta_seconds <$> PyFloatParse.float "0.0000005" = Some (Ret 0).
Proof. reflexivity. Qed.
Example timedelta_ex4 :
  PyTime.timedelta_seconds <$> PyFloatParse.float "-2.5" = Some (Ret (-2500000)).
Proof. reflexivity. Qed.
Example timedelta_ex5 :
  PyTime.timedelta_seconds <$> PyFloatParse.float "1e16" = Some (Raise OverflowError).
Proof. reflexivity. Qed.
Example newlines_ex :
  PyStr.universal_newlines
    (String "a" (String "013" (String "010" (String "b" (String "013" "c")))))
  = String "a" (String "010" (String "b" (String "010" "c"))).
Proof. reflexivity. Qed.
Example float_ex5 : PyFloatParse.float "." = None.
Proof. reflexivity. Qed.
Example float_ex6 : PyFloatParse.float "1e" = None.
Proof. reflexivity. Qed.
Example float_ex7 : PyFloatParse.float "seconds" = None.
Proof. reflexivity. Qed.
Example strptime_ex1 :
  PyTime.strptime "2024 13:05:00" = Some (PyTime.mk_datetime 2024 1 1 13 5 0 0).
Proof. reflexivity. Qed.
Example strptime_ex2 : PyTime.strptime "2024-05-01 13:05:00" = None.
Proof. reflexivity. Qed.
Example strptime_ex3 : PyTime.strptime "2024 24:05:00" = None.
Proof. reflexivity. Qed.
Example strptime_ex4 :
  PyTime.strptime "2024 2:5:7" = Some (PyTime.mk_datetime 2024 1 1 2 5 7 0).
Proof. reflexivity. Qed.
Example strptime_ex5 : PyTime.strptime "2024 13:05:60" = None.
Proof. reflexivity. Qed.
Example ord_ex1 : PyTime.ymd2ord 9999 12 31 = PyTime.max_ordinal.
Proof. reflexivity. Qed.
Example ord_ex2 : PyTime.ord2ymd 738886 = (2024, 1, 1).
Proof. reflexivity. Qed.
Example ord_ex3 : PyTime.ord2ymd (PyTime.ymd2ord 2024 12 31) = (2024, 12, 31).
Proof. reflexivity. Qed.
Example ord_ex4 : PyTime.ord2ymd (PyTime.ymd2ord 2023 3 1) = (2023, 3, 1).
Proof. reflexivity. Qed.
Example iso_ex :
  PyTime.isoformat (PyTime.mk_datetime 2024 1 1 13 5 45 0) = "2024-01-01T13:05:45".
Proof. reflexivity. Qed.
Example iso_ex2 :
  PyTime.isoformat (PyTime.mk_datetime 24 1 1 13 5 45 500) = "0024-01-01T13:05:45.000500".
Proof. reflexivity. Qed.

Example extract_data_ex :
  Convert.extract_data (document (sample_rows "Friday 2024")) = year_fields.
Proof. vm_compute. reflexivity. Qed.
Example nested_rows_ex :
  Convert.extract_data (document [nested_row]) = {["low" := "1"]}.
Proof. vm_compute. reflexivity. Qed.
Example main_success_ex :
  let run := sample_main os_ok "Friday 2024" sample_args sample_world in
  fst run = Ret SUCCESS
  /\ trace (snd run) =
       [EvOpenRead "/data/line1/reports/r.html"; EvConvert; EvOpenWrite "/out/r.xml";
        EvMakedirs "/data/line1/arhiiv";
        EvMove "/data/line1/reports/r.html" "/data/line1/arhiiv"]
  /\ files (snd run) !! "/data/line1/reports/r.html" = None
  /\ is_Some (files (snd run) !! "/data/line1/arhiiv/r.html").
Proof. cbv zeta. repeat split; try (vm_compute; reflexivity). vm_compute. eauto. Qed.

(** ** Validation of the required fields *)

Section Validation.

Implicit Types (data : gmap string string) (fields : list string).

Lemma first_missing_None data fields :
  Convert.first_missing fields data = None <->
  Forall (fun field => is_Some (data !! field)) fields.
Proof.
  induction fields as [|f fs IH]; simpl.
  - split; [constructor | reflexivity].
  - destruct (data !! f) as [v|] eqn:Hf.
    + rewrite IH. split.
      * intros Hfs. constructor; [rewrite Hf; eauto | exact Hfs].
      * intros Hall. inversion Hall; assumption.
    + split; [discriminate |].
      intros Hall. inversion Hall as [|? ? Hsome _]; subst.
      rewrite Hf in Hsome. destruct Hsome as [? ?]. discriminate.
Qed.

(** The field that [first_missing] names is absent and all the fields
    before it in the list are present. *)
Lemma first_missing_Some data fields f :
  Convert.first_missing fields data = Some f ->
  exists pre post,
    fields = (pre ++ f :: post)%list
    /\ Forall (fun field => is_Some (data !! field)) pre
    /\ data !! f = None.
Proof.
  induction fields as [|g fs IH]; simpl; [discriminate |].
  destruct (data !! g) as [v|] eqn:Hg.
  - intros Hfs. destruct (IH Hfs) as (pre & post & -> & Hpre & Hf).
    exists (g :: pre), post. split; [reflexivity |].
    split; [constructor; [rewrite Hg; eauto | exact Hpre] | exact Hf].
  - intros [= <-]. exists [], fs. repeat split; [constructor | exact Hg].
Qed.

Lemma all_required_first_missing data :
  Convert.all_required data <->
  Convert.first_missing Convert.required_fields data = None.
Proof. symmetry. apply first_missing_None. Qed.

(** When the text of Execution Time (or its default) has a first token,
    a missing required field makes [transform] return [None] after
    logging the first missing field of the list, and nothing else. *)
Lemma transform_reports_first_missing data tok :
  PyStr.first (PyStr.split (Convert.get data "Execution Time" "0 seconds")) = Ret tok ->
  ~ Convert.all_required data ->
  exists pre f post,
    Convert.required_fields = (pre ++ f :: post)%list
    /\ Forall (fun field => is_Some (data !! field)) pre
    /\ data !! f = None
    /\ Convert.transform data = ([LogError ("Missing '" +:+ f +:+ "'")], Ret None).
Proof.
  intros Htok Hnot. unfold Convert.transform. rewrite Htok.
  destruct (Convert.first_missing Convert.required_fields data) as [f|] eqn:Hf.
  - destruct (first_missing_Some _ _ _ Hf) as (pre & post & Heq & Hpre & Hnone).
    exists pre, f, post. repeat split; assumption.
  - exfalso. apply Hnot. apply all_required_first_missing. exact Hf.
Qed.

(** When all the required fields are present, [transform] is the parse of
    the fields under the [except] clause of line 103. *)
Lemma transform_all_required data tok :
  PyStr.first (PyStr.split (Convert.get data "Execution Time" "0 seconds")) = Ret tok ->
  Convert.all_required data ->
  Convert.transform data =
    match Convert.parse_fields data tok with
    | Ret r => ([], Ret (Some r))
    | Raise e =>
        if Convert.caught e
        then ([LogErrorExc "Error parsing date, time, or execution time: " e], Ret None)
        else ([], Raise e)
    end.
Proof.
  intros Htok Hall. unfold Convert.transform. rewrite Htok.
  apply all_required_first_missing in Hall. rewrite Hall. reflexivity.
Qed.

End Validation.

(** C7. A dictionary that lacks required fields and maps Execution Time to
    the empty text: the first missing field is Station ID, but line 89 takes
    the first token of the empty text before the fields are checked, so
    [transform] raises [IndexError]; it neither logs the missing field nor
    returns [None]. *)
Theorem missing_field_blank_execution_time_raises :
  let data : gmap string string := {["Execution Time" := ""]} in
  ~ Convert.all_required data
  /\ Convert.first_missing Convert.required_fields data = Some "Station ID"
  /\ Convert.transform data = ([], Raise IndexError).
Proof.
  cbv zeta. split; [| split].
  - intros Hall. apply all_required_first_missing in Hall. vm_compute in Hall.
    discriminate.
  - vm_compute. reflexivity.
  - vm_compute. reflexivity.
Qed.

(** ** The time of the report *)

Section Time.

Import PyTime.

Lemma is_digit_bounds c :
  PyStr.is_digit c = true -> 0 <= PyStr.digit_val c <= 9.
Proof. unfold PyStr.is_digit, PyStr.digit_val. lia. Qed.

Lemma two_digits_bounds lo1 hi1 lo2 hi2 s v rest :
  two_digits lo1 hi1 lo2 hi2 s = Some (v, rest) ->
  0 <= lo1 -> hi1 <= 9 -> 0 <= lo2 -> hi2 <= 9 ->
  10 * lo1 + lo2 <= v <= 10 * hi1 + hi2.
Proof.
  unfold two_digits. destruct s as [|a [|b s']]; try discriminate.
  destruct (_ && _) eqn:Hc; [| discriminate].
  intros [= <- <-] ? ? ? ?. lia.
Qed.

Lemma one_digit_bounds s v rest :
  one_digit s = Some (v, rest) -> 0 <= v <= 9.
Proof.
  unfold one_digit. destruct s as [|a s']; [discriminate |].
  destruct (PyStr.is_digit a) eqn:Hd; [| discriminate].
  intros [= <- <-]. apply is_digit_bounds. exact Hd.
Qed.

(** What [first_alt] returns comes from one of the alternatives. *)
Lemma first_alt_Some {R} alts s (k : Z -> string -> option R) r :
  first_alt alts s k = Some r ->
  exists a v rest, In a alts /\ a s = Some (v, rest) /\ k v rest = Some r.
Proof.
  induction alts as [|a alts IH]; simpl; [discriminate |].
  destruct (a s) as [[v rest]|] eqn:Ha.
  - destruct (k v rest) as [r'|] eqn:Hk.
    + intros [= ->]. exists a, v, rest. auto.
    + intros H. destruct (IH H) as (a' & v' & rest' & ? & ? & ?).
      exists a', v', rest'. auto.
  - intros H. destruct (IH H) as (a' & v' & rest' & ? & ? & ?).
    exists a', v', rest'. auto.
Qed.

Lemma group_H_bounds a s v rest :
  In a group_H -> a s = Some (v, rest) -> 0 <= v <= 23.
Proof.
  unfold group_H. simpl. intros [<-|[<-|[<-|[]]]] Ha.
  - apply two_digits_bounds in Ha; lia.
  - apply two_digits_bounds in Ha; lia.
  - apply one_digit_bounds in Ha. lia.
Qed.

Lemma group_M_bounds a s v rest :
  In a group_M -> a s = Some (v, rest) -> 0 <= v <= 59.
Proof.
  unfold group_M. simpl. intros [<-|[<-|[]]] Ha.
  - apply two_digits_bounds in Ha; lia.
  - apply one_digit_bounds in Ha. lia.
Qed.

Lemma group_S_bounds a s v rest :
  In a group_S -> a s = Some (v, rest) -> 0 <= v <= 61.
Proof.
  unfold group_S. simpl. intros [<-|[<-|[<-|[]]]] Ha.
  - apply two_digits_bounds in Ha; lia.
  - apply two_digits_bounds in Ha; lia.
  - apply one_digit_bounds in Ha. lia.
Qed.

Lemma four_digits_bounds s y rest :
  four_digits s = Some (y, rest) -> 0 <= y <= 9999.
Proof.
  unfold four_digits. destruct s as [|a [|b [|c [|d s']]]]; try discriminate.
  destruct (_ && _) eqn:Hc; [| discriminate].
  intros [= <- <-].
  apply andb_prop in Hc as [Hc Hd]. apply andb_prop in Hc as [Hc Hcc].
  apply andb_prop in Hc as [Ha Hb].
  apply is_digit_bounds in Ha, Hb, Hcc, Hd. lia.
Qed.

Lemma expect_Some {R} c s (k : string -> option R) r :
  expect c s k = Some r -> exists rest, k rest = Some r.
Proof.
  unfold expect. destruct s as [|a rest]; [discriminate |].
  destruct (Ascii.eqb a c); [eauto | discriminate].
Qed.

(** [strptime] with ['%Y %H:%M:%S'] sets the year and the time of day
    only. *)
Lemma strptime_year_and_time s t :
  strptime s = Some t -> is_year_and_time t.
Proof.
  unfold strptime, regex_match.
  destruct (four_digits s) as [[y s1]|] eqn:Hy; [| discriminate].
  destruct (spaces1 s1) as [s2|]; [| discriminate].
  destruct (first_alt group_H s2 _) as [[[[[y' h] m] sec] rest]|] eqn:HH;
    [| discriminate].
  apply first_alt_Some in HH as (aH & vh & rh & HinH & HaH & HH).
  apply expect_Some in HH as (r1 & HH).
  apply first_alt_Some in HH as (aM & vm & rm & HinM & HaM & HH).
  apply expect_Some in HH as (r2 & HH).
  apply first_alt_Some in HH as (aS & vs & rs & HinS & HaS & HH).
  injection HH as <- <- <- <- <-.
  destruct (_ && _) eqn:Hc; [| discriminate].
  intros [= <-].
  apply andb_prop in Hc as [Hc Hsec]. apply andb_prop in Hc as [_ Hy1].
  apply four_digits_bounds in Hy.
  apply (group_H_bounds _ _ _ _ HinH) in HaH.
  apply (group_M_bounds _ _ _ _ HinM) in HaM.
  apply (group_S_bounds _ _ _ _ HinS) in HaS.
  unfold is_year_and_time. simpl. lia.
Qed.

Lemma jan1_all : forallb jan1_ok (seqZ 1 9999) = true.
Proof. vm_compute. reflexivity. Qed.

Lemma jan1_roundtrip y :
  1 <= y <= 9999 ->
  ord2ymd (ymd2ord y 1 1) = (y, 1, 1)
  /\ 1 <= ymd2ord y 1 1 <= max_ordinal.
Proof.
  intros Hy.
  assert (Hin : In y (seqZ 1 9999)).
  { apply list_elem_of_In, elem_of_seqZ. lia. }
  pose proof (proj1 (forallb_forall _ _) jan1_all y Hin) as Hok.
  unfold jan1_ok in Hok.
  destruct (ord2ymd (ymd2ord y 1 1)) as [[y' m'] d'].
  split; [f_equal; [f_equal |]; lia | lia].
Qed.

(** The microseconds of a time of day on a given ordinal decode to the
    same ordinal and time of day. *)
Lemma of_us_to_us t :
  is_year_and_time t -> of_us (to_us t) = t /\ 1 <= to_us t / us_per_day <= max_ordinal.
Proof.
  intros (Hy & Hm & Hd & Hh & Hmi & Hs & Hus).
  destruct t as [y m d h mi s us];
    cbn [year month day hour minute second microsecond] in *. subst m d us.
  destruct (jan1_roundtrip y Hy) as [Hrt Hrange].
  unfold of_us, to_us; cbn [year month day hour minute second microsecond].
  set (o := ymd2ord y 1 1) in *.
  unfold us_per_day, us_per_second.
  assert (Hdiv : (((o * 24 + h) * 60 + mi) * 60 + s) * 1000000 / (86400 * 1000000) = o).
  { symmetry. apply (Z.div_unique _ _ _ (((h * 60 + mi) * 60 + s) * 1000000)); lia. }
  assert (Hmod : ((((o * 24 + h) * 60 + mi) * 60 + s) * 1000000) mod (86400 * 1000000)
                 = ((h * 60 + mi) * 60 + s) * 1000000).
  { symmetry. apply (Z.mod_unique _ _ o); lia. }
  rewrite Z.add_0_r, Hdiv, Hmod, Hrt.
  split; [| lia].
  rewrite Z.div_mul by lia. rewrite Z.mod_mul by lia.
  f_equal.
  - symmetry. apply (Z.div_unique _ _ _ (mi * 60 + s)); lia.
  - assert (E : ((h * 60 + mi) * 60 + s) mod 3600 = mi * 60 + s).
    { symmetry. apply (Z.mod_unique _ _ h); lia. }
    rewrite E. symmetry. apply (Z.div_unique _ _ _ s); lia.
  - symmetry. apply (Z.mod_unique _ _ (h * 60 + mi)); lia.
Qed.

(** Adding no time to what [strptime] returned gives it back. *)
Lemma add_zero t : is_year_and_time t -> add t 0 = Ret t.
Proof.
  intros Ht. destruct (of_us_to_us t Ht) as [Hrt Hrange].
  unfold add. rewrite Z.add_0_r, Hrt.
  destruct (_ && _) eqn:Hc; [reflexivity | lia].
Qed.

End Time.

(** ** The parsed fields *)

Section Fields.

Implicit Types (data : gmap string string).

Lemma get_Some data key dflt v :
  data !! key = Some v -> Convert.get data key dflt = v.
Proof. unfold Convert.get. intros ->. reflexivity. Qed.

Lemma get_None data key dflt :
  data !! key = None -> Convert.get data key dflt = dflt.
Proof. unfold Convert.get. intros ->. reflexivity. Qed.

(** The five steps of the [try] block, when each of them succeeds. *)
Lemma parse_fields_Ret data tok x token start delta stop :
  PyFloatParse.float tok = Some x ->
  PyStr.last (PyStr.split (Convert.get data "Date" "")) = Ret token ->
  PyTime.strptime (Convert.composite token (Convert.get data "Time" "")) = Some start ->
  PyTime.timedelta_seconds x = Ret delta ->
  PyTime.add start delta = Ret stop ->
  Convert.parse_fields data tok =
    Ret (Convert.mk_record
           (Convert.get data "Station ID" "") (Convert.get data "Serial Number" "")
           (Convert.get data "Sequence Name" "")
           (if PyStr.contains "Passed" (Convert.get data "UUT Result" "")
            then "PASS" else "FAIL")
           start stop).
Proof.
  intros Hx Htoken Hstart Hdelta Hstop. unfold Convert.parse_fields.
  rewrite Hx. cbn [Convert.of_option py_bind].
  rewrite Htoken. cbn [py_bind].
  rewrite Hstart. cbn [Convert.of_option py_bind].
  rewrite Hdelta. cbn [py_bind]. rewrite Hstop. reflexivity.
Qed.

(** Conversely a record comes from five successful steps. *)
Lemma parse_fields_inv data tok r :
  Convert.parse_fields data tok = Ret r ->
  exists x token delta,
    PyFloatParse.float tok = Some x
    /\ PyStr.last (PyStr.split (Convert.get data "Date" "")) = Ret token
    /\ PyTime.strptime (Convert.composite token (Convert.get data "Time" ""))
       = Some (Convert.start_time r)
    /\ PyTime.timedelta_seconds x = Ret delta
    /\ PyTime.add (Convert.start_time r) delta = Ret (Convert.end_time r)
    /\ Convert.station_id r = Convert.get data "Station ID" ""
    /\ Convert.serial_number r = Convert.get data "Serial Number" ""
    /\ Convert.sequence_name r = Convert.get data "Sequence Name" ""
    /\ Convert.status r =
         (if PyStr.contains "Passed" (Convert.get data "UUT Result" "")
          then "PASS" else "FAIL").
Proof.
  unfold Convert.parse_fields.
  destruct (PyFloatParse.float tok) as [x|];
    cbn [Convert.of_option py_bind]; [| discriminate].
  destruct (PyStr.last _) as [token|]; cbn [py_bind]; [| discriminate].
  destruct (PyTime.strptime _) as [start|] eqn:Hstart;
    cbn [Convert.of_option py_bind]; [| discriminate].
  destruct (PyTime.timedelta_seconds x) as [delta|] eqn:Hdelta;
    cbn [py_bind]; [| discriminate].
  destruct (PyTime.add start delta) as [stop|] eqn:Hstop;
    cbn [py_bind]; [| discriminate].
  intros [= <-].
  cbn [Convert.start_time Convert.end_time Convert.station_id
       Convert.serial_number Convert.sequence_name Convert.status].
  exists x, token, delta. repeat split; auto.
Qed.

(** What [transform] returns as a record is what [parse_fields] returned
    for the first token of Execution Time. *)
Lemma transform_inv data l r :
  Convert.transform data = (l, Ret (Some r)) ->
  exists tok,
    PyStr.first (PyStr.split (Convert.get data "Execution Time" "0 seconds")) = Ret tok
    /\ Convert.all_required data
    /\ Convert.parse_fields data tok = Ret r
    /\ l = [].
Proof.
  unfold Convert.transform.
  destruct (PyStr.first _) as [tok|]; [| discriminate].
  destruct (Convert.first_missing _ _) eqn:Hmiss; [discriminate |].
  destruct (Convert.parse_fields data tok) as [r'|e] eqn:Hparse.
  - intros [= <- <-]. exists tok. repeat split; auto.
    apply all_required_first_missing. exact Hmiss.
  - destruct (Convert.caught e); discriminate.
Qed.

Lemma all_required_insert data key v :
  Convert.all_required data -> Convert.all_required (<[key := v]> data).
Proof.
  unfold Convert.all_required. intros Hall.
  eapply Forall_impl; [exact Hall |].
  intros f [w Hw]. simpl. destruct (decide (key = f)) as [->|Hne].
  - rewrite lookup_insert_eq. eauto.
  - rewrite lookup_insert_ne by exact Hne. eauto.
Qed.

Lemma all_required_report_fields date_str time_str :
  Convert.all_required (report_fields date_str time_str).
Proof.
  unfold Convert.all_required, Convert.required_fields, report_fields.
  repeat constructor; eexists; simplify_map_eq; reflexivity.
Qed.

(** A blank text has no token. *)
Lemma split_blank s : PyStr.lstrip s = "" -> PyStr.split s = [].
Proof.
  unfold PyStr.split. induction s as [|c s IH]; [reflexivity |].
  cbn [PyStr.lstrip PyStr.split_go].
  destruct (PyStr.is_space c); [exact IH | discriminate].
Qed.

End Fields.

(** C8. With the six required fields present and no Execution Time key, the
    text parsed is the default, its first token is "0", which is the number
    0.0 and a duration of no microsecond; the conversion succeeds exactly
    when the time stamp parses, and then [end_time] is [start_time]. *)
Theorem absent_execution_time_defaults_to_zero (data : gmap string string) :
  Convert.all_required data ->
  data !! "Execution Time" = None ->
  PyStr.first (PyStr.split (Convert.get data "Execution Time" "0 seconds")) = Ret "0"
  /\ PyFloatParse.float "0" = Some (S754_zero false)
  /\ PyTime.timedelta_seconds (S754_zero false) = Ret 0
  /\ (forall l r, Convert.transform data = (l, Ret (Some r)) ->
        Convert.end_time r = Convert.start_time r)
  /\ (forall token start,
        PyStr.last (PyStr.split (Convert.get data "Date" "")) = Ret token ->
        PyTime.strptime (Convert.composite token (Convert.get data "Time" "")) = Some start ->
        exists r, Convert.transform data = ([], Ret (Some r))
                  /\ Convert.start_time r = start /\ Convert.end_time r = start).
Proof.
  intros Hall Habsent.
  assert (Htok : PyStr.first (PyStr.split (Convert.get data "Execution Time" "0 seconds"))
                 = Ret "0").
  { rewrite (get_None _ _ _ Habsent). reflexivity. }
  split; [exact Htok |]. split; [reflexivity |]. split; [reflexivity |]. split.
  - intros l r Htr.
    apply transform_inv in Htr as (tok & Htok' & _ & Hparse & _).
    rewrite Htok in Htok'. injection Htok' as <-.
    apply parse_fields_inv in Hparse
      as (x & token & delta & Hx & _ & Hstart & Hdelta & Hstop & _).
    change (PyFloatParse.float "0") with (Some (S754_zero false)) in Hx.
    injection Hx as <-.
    change (PyTime.timedelta_seconds (S754_zero false)) with (Ret (A:=Z) 0) in Hdelta.
    injection Hdelta as <-.
    rewrite (add_zero _ (strptime_year_and_time _ _ Hstart)) in Hstop.
    injection Hstop as <-. reflexivity.
  - intros token start Htoken Hstart.
    eexists. rewrite (transform_all_required _ _ Htok Hall).
    rewrite (parse_fields_Ret data "0" (S754_zero false) token start 0 start);
      [ split; [reflexivity | split; reflexivity]
      | reflexivity | exact Htoken | exact Hstart | reflexivity
      | apply add_zero, (strptime_year_and_time _ _ Hstart) ].
Qed.

Lemma absent_execution_time_defaults_to_zero_witness :
  let data := report_fields "Friday 2024" "13.05.00" in
  exists r, Convert.transform data = ([], Ret (Some r))
            /\ Convert.end_time r = Convert.start_time r.
Proof.
  cbv zeta.
  destruct (absent_execution_time_defaults_to_zero
              (report_fields "Friday 2024" "13.05.00")
              (all_required_report_fields _ _) eq_refl)
    as (_ & _ & _ & _ & Hrun).
  destruct (Hrun "2024" (PyTime.mk_datetime 2024 1 1 13 5 0 0) eq_refl eq_refl)
    as (r & Hr & Hs & He).
  exists r. split; [exact Hr | congruence].
Defined.

(** ** The text of a time stamp *)

Section TimeText.

Import PyTime.

Lemma append_String x (a b : string) : String x a +:+ b = String x (a +:+ b).
Proof. reflexivity. Qed.

Lemma append_empty_l (b : string) : "" +:+ b = b.
Proof. reflexivity. Qed.

Lemma append_assoc (a b c : string) : (a +:+ b) +:+ c = a +:+ (b +:+ c).
Proof.
  induction a as [|x a IH]; [reflexivity |].
  rewrite !append_String, IH. reflexivity.
Qed.

Lemma append_empty_r (a : string) : a +:+ "" = a.
Proof.
  induction a as [|x a IH]; [reflexivity |].
  rewrite append_String, IH. reflexivity.
Qed.

(** The character that [zfill] writes for a digit. *)
Lemma digit_char_props (n : Z) :
  let c := ascii_of_N (Z.to_N (48 + n mod 10)) in
  PyStr.is_digit c = true /\ PyStr.digit_val c = n mod 10
  /\ PyStr.is_space c = false /\ Ascii.eqb c "." = false.
Proof.
  assert (Hk : 0 <= n mod 10 < 10) by (apply Z.mod_pos_bound; lia).
  set (k := n mod 10) in *. clearbody k.
  assert (Hc : k = 0 \/ k = 1 \/ k = 2 \/ k = 3 \/ k = 4 \/ k = 5 \/ k = 6
               \/ k = 7 \/ k = 8 \/ k = 9) by lia.
  repeat destruct Hc as [-> | Hc]; try subst k; vm_compute; auto.
Qed.


Lemma replace_app old new a b :
  PyStr.replace old new (a +:+ b)
  = PyStr.replace old new a +:+ PyStr.replace old new b.
Proof.
  induction a as [|c a IH]; [reflexivity |].
  rewrite append_String. cbn [PyStr.replace].
  destruct (Ascii.eqb c old); rewrite IH.
  - symmetry. apply append_assoc.
  - apply append_String.
Qed.

Lemma replace_zfill w n : PyStr.replace "." ":" (zfill w n) = zfill w n.
Proof.
  revert n. induction w as [|w IH]; intros n; [reflexivity |].
  cbn [zfill]. rewrite replace_app, IH. cbn [PyStr.replace].
  destruct (digit_char_props n) as (_ & _ & _ & ->). reflexivity.
Qed.

Lemma four_digits_zfill y rest :
  0 <= y <= 9999 -> four_digits (zfill 4 y +:+ rest) = Some (y, rest).
Proof.
  intros Hy. cbv [zfill String.append]. unfold four_digits.
  destruct (digit_char_props y) as (-> & -> & _).
  destruct (digit_char_props (y / 10)) as (-> & -> & _).
  destruct (digit_char_props (y / 10 / 10)) as (-> & -> & _).
  destruct (digit_char_props (y / 10 / 10 / 10)) as (-> & -> & _).
  cbn [andb]. do 2 f_equal.
  pose proof (Z.div_mod y 10). pose proof (Z.div_mod (y / 10) 10).
  pose proof (Z.div_mod (y / 10 / 10) 10).
  pose proof (Z.div_mod (y / 10 / 10 / 10) 10).
  assert (y / 10 / 10 / 10 / 10 = 0).
  { rewrite !Z.div_div by lia. apply Z.div_small. lia. }
  lia.
Qed.

Lemma spaces1_zfill n rest :
  spaces1 (" " +:+ zfill 2 n +:+ rest) = Some (zfill 2 n +:+ rest).
Proof.
  cbv [zfill String.append spaces1 PyStr.lstrip].
  destruct (digit_char_props (n / 10)) as (_ & _ & -> & _). reflexivity.
Qed.

Ltac split_cases n lo hi :=
  let Hin := fresh "Hin" in
  assert (Hin : In n (seqZ lo (hi - lo + 1)))
    by (apply list_elem_of_In, elem_of_seqZ; lia);
  vm_compute in Hin;
  repeat (destruct Hin as [<- | Hin]; [| try contradiction]).

Lemma group_H_zfill {R} h rest (k : Z -> string -> option R) r :
  0 <= h <= 23 -> k h rest = Some r ->
  first_alt group_H (zfill 2 h +:+ rest) k = Some r.
Proof.
  intros Hh Hk. split_cases h 0 23; vm_compute; rewrite Hk; reflexivity.
Qed.

Lemma group_M_zfill {R} m rest (k : Z -> string -> option R) r :
  0 <= m <= 59 -> k m rest = Some r ->
  first_alt group_M (zfill 2 m +:+ rest) k = Some r.
Proof.
  intros Hm Hk. split_cases m 0 59; vm_compute; rewrite Hk; reflexivity.
Qed.

Lemma group_S_zfill {R} s rest (k : Z -> string -> option R) r :
  0 <= s <= 59 -> k s rest = Some r ->
  first_alt group_S (zfill 2 s +:+ rest) k = Some r.
Proof.
  intros Hs Hk. split_cases s 0 59; vm_compute; rewrite Hk; reflexivity.
Qed.

(** No conversion of the time: a year [y] and a wall-clock time [h.m.s]
    written in the form that line 101 expects parse to the very same
    year, hour, minute and second. *)
Lemma strptime_wall_clock y h m s :
  1 <= y <= 9999 -> 0 <= h <= 23 -> 0 <= m <= 59 -> 0 <= s <= 59 ->
  strptime (Convert.composite (zfill 4 y)
              (zfill 2 h +:+ "." +:+ zfill 2 m +:+ "." +:+ zfill 2 s))
  = Some (mk_datetime y 1 1 h m s 0).
Proof.
  intros Hy Hh Hm Hs. unfold Convert.composite.
  rewrite !replace_app, !replace_zfill.
  change (PyStr.replace "." ":" ".") with ":".
  unfold strptime, regex_match.
  rewrite four_digits_zfill by lia.
  rewrite spaces1_zfill.
  rewrite (group_H_zfill h _ _ (y, h, m, s, "") Hh).
  - cbn [PyStr.is_empty andb]. destruct (1 <=? y) eqn:E1; [| lia].
    destruct (s <=? 59) eqn:E2; [reflexivity | lia].
  - change (expect ":" (":" +:+ zfill 2 m +:+ ":" +:+ zfill 2 s) ?k)
      with (k (zfill 2 m +:+ ":" +:+ zfill 2 s)).
    cbv beta.
    apply group_M_zfill; [exact Hm |].
    change (expect ":" (":" +:+ zfill 2 s) ?k) with (k (zfill 2 s)).
    cbv beta.
    rewrite <- (append_empty_r (zfill 2 s)).
    apply group_S_zfill; [exact Hs | reflexivity].
Qed.

End TimeText.

(** The [except] clause of line 103 after a time stamp that does not
    parse. *)
Lemma parse_fields_no_start data tok x token :
  PyFloatParse.float tok = Some x ->
  PyStr.last (PyStr.split (Convert.get data "Date" "")) = Ret token ->
  PyTime.strptime (Convert.composite token (Convert.get data "Time" "")) = None ->
  Convert.parse_fields data tok = Raise ValueError.
Proof.
  intros Hx Htoken Hstart. unfold Convert.parse_fields.
  rewrite Hx. cbn [Convert.of_option py_bind].
  rewrite Htoken. cbn [py_bind]. rewrite Hstart. reflexivity.
Qed.

(** C3. With the required fields present, the [start_time] of a converted
    report is what [strptime] with ['%Y %H:%M:%S'] makes of the last token of
    Date, a space, and Time with its periods turned into colons: a year and
    a time of day, on the first of January. The conversion does produce it:
    when Execution Time gives a duration and that text parses to a time to
    which the duration can be added, the conversion returns a record whose
    [start_time] is that time; when that text does not parse, the conversion
    returns [None] after logging the [ValueError]. The parse is naive: a
    year and a wall-clock time written in that form come back unchanged. *)
Theorem start_time_from_last_token_and_time
    (data : gmap string string) (date_str time_str : string) :
  Convert.all_required data ->
  data !! "Date" = Some date_str ->
  data !! "Time" = Some time_str ->
  (forall l r, Convert.transform data = (l, Ret (Some r)) ->
     exists token,
       PyStr.last (PyStr.split date_str) = Ret token
       /\ PyTime.strptime (token +:+ " " +:+ PyStr.replace "." ":" time_str)
          = Some (Convert.start_time r)
       /\ is_year_and_time (Convert.start_time r))
  /\ (forall tok x token,
        PyStr.first (PyStr.split (Convert.get data "Execution Time" "0 seconds"))
          = Ret tok ->
        PyFloatParse.float tok = Some x ->
        PyStr.last (PyStr.split date_str) = Ret token ->
        match PyTime.strptime (token +:+ " " +:+ PyStr.replace "." ":" time_str) with
        | Some start =>
            forall delta stop,
              PyTime.timedelta_seconds x = Ret delta ->
              PyTime.add start delta = Ret stop ->
              exists r,
                Convert.transform data = ([], Ret (Some r))
                /\ Convert.start_time r = start
                /\ Convert.end_time r = stop
        | None =>
            Convert.transform data =
              ([LogErrorExc "Error parsing date, time, or execution time: " ValueError],
               Ret None)
        end)
  /\ (forall y h m s,
        1 <= y <= 9999 -> 0 <= h <= 23 -> 0 <= m <= 59 -> 0 <= s <= 59 ->
        PyTime.strptime
          (PyTime.zfill 4 y +:+ " "
           +:+ PyStr.replace "." ":"
                 (PyTime.zfill 2 h +:+ "." +:+ PyTime.zfill 2 m +:+ "." +:+ PyTime.zfill 2 s))
        = Some (PyTime.mk_datetime y 1 1 h m s 0)).
Proof.
  intros Hall Hdate Htime. split; [| split].
  - intros l r Htr.
    apply transform_inv in Htr as (tok & _ & _ & Hparse & _).
    apply parse_fields_inv in Hparse as (x & token & delta & _ & Htoken & Hstart & _).
    rewrite (get_Some _ _ _ _ Hdate) in Htoken.
    rewrite (get_Some _ _ _ _ Htime) in Hstart.
    exists token. split; [exact Htoken |]. split; [exact Hstart |].
    exact (strptime_year_and_time _ _ Hstart).
  - intros tok x token Htok Hx Htoken.
    rewrite (transform_all_required _ _ Htok Hall).
    rewrite <- (get_Some _ _ "" _ Hdate) in Htoken.
    change (token +:+ " " +:+ PyStr.replace "." ":" time_str)
      with (Convert.composite token time_str).
    rewrite <- (get_Some _ _ "" _ Htime).
    destruct (PyTime.strptime _) as [start|] eqn:Hstart.
    + intros delta stop Hdelta Hstop. eexists.
      rewrite (parse_fields_Ret data tok x token start delta stop Hx Htoken Hstart
                 Hdelta Hstop).
      split; [reflexivity |]. split; reflexivity.
    + rewrite (parse_fields_no_start data tok x token Hx Htoken Hstart). reflexivity.
  - intros y h m s Hy Hh Hm Hs. exact (strptime_wall_clock y h m s Hy Hh Hm Hs).
Qed.

Lemma start_time_from_last_token_and_time_witness :
  exists r,
    Convert.transform year_fields = ([], Ret (Some r))
    /\ Convert.start_time r = PyTime.mk_datetime 2024 1 1 13 5 0 0
    /\ PyTime.strptime ("2024" +:+ " " +:+ PyStr.replace "." ":" "13.05.00")
       = Some (Convert.start_time r).
Proof.
  destruct (start_time_from_last_token_and_time year_fields "Friday 2024" "13.05.00")
    as (Hback & Hrun & _).
  - apply all_required_insert, all_required_report_fields.
  - reflexivity.
  - reflexivity.
  - destruct (Hrun "45" (PyFloatParse.of_Z 45) "2024" eq_refl eq_refl eq_refl
                45000000 (PyTime.mk_datetime 2024 1 1 13 5 45 0) eq_refl eq_refl)
      as (r & Htr & Hstart & _).
    exists r. split; [exact Htr |]. split; [exact Hstart |].
    destruct (Hback [] r Htr) as (token & Htoken & Hparse & _).
    injection Htoken as <-. exact Hparse.
Defined.

(** C2, as the specification states it: it fails. The last token of
    "Friday 2024-05-01" is "2024-05-01", the text given to [strptime] is
    "2024-05-01 13:05:00", which does not match ['%Y %H:%M:%S']; the
    conversion logs the [ValueError] and returns [None]. *)
Lemma full_date_does_not_parse :
  PyStr.last (PyStr.split "Friday 2024-05-01") = Ret "2024-05-01"
  /\ Convert.composite "2024-05-01" "13.05.00" = "2024-05-01 13:05:00"
  /\ PyTime.strptime "2024-05-01 13:05:00" = None
  /\ ~ (exists l r, Convert.transform full_date_fields = (l, Ret (Some r))).
Proof.
  split; [reflexivity |]. split; [reflexivity |]. split; [reflexivity |].
  intros (l & r & Htr). vm_compute in Htr. discriminate.
Qed.

(** C2, amended. With Time "13.05.00" and Execution Time "45 seconds": for
    the Date "Friday 2024-05-01" the text "2024-05-01 13:05:00" does not
    parse and the conversion returns [None] after logging the error; for a
    Date that ends with the year, "Friday 2024", the text "2024 13:05:00"
    parses to 13:05:00 on the first of January 2024 and [end_time] is 45
    seconds later. *)
Theorem full_date_fails_and_year_parses (data : gmap string string) :
  Convert.all_required data ->
  data !! "Time" = Some "13.05.00" ->
  data !! "Execution Time" = Some "45 seconds" ->
  (data !! "Date" = Some "Friday 2024-05-01" ->
     PyTime.strptime (Convert.composite "2024-05-01" "13.05.00") = None
     /\ Convert.transform data =
          ([LogErrorExc "Error parsing date, time, or execution time: " ValueError],
           Ret None))
  /\ (data !! "Date" = Some "Friday 2024" ->
        exists r,
          Convert.transform data = ([], Ret (Some r))
          /\ Convert.start_time r = PyTime.mk_datetime 2024 1 1 13 5 0 0
          /\ Convert.end_time r = PyTime.mk_datetime 2024 1 1 13 5 45 0
          /\ PyTime.to_us (Convert.end_time r)
             = PyTime.to_us (Convert.start_time r) + 45 * PyTime.us_per_second).
Proof.
  intros Hall Htime Hexec.
  assert (Htok : PyStr.first (PyStr.split (Convert.get data "Execution Time" "0 seconds"))
                 = Ret "45").
  { rewrite (get_Some _ _ _ _ Hexec). reflexivity. }
  split; intros Hdate.
  - split; [reflexivity |].
    rewrite (transform_all_required _ _ Htok Hall).
    unfold Convert.parse_fields.
    rewrite (get_Some _ _ _ _ Hdate), (get_Some _ _ _ _ Htime).
    reflexivity.
  - eexists. rewrite (transform_all_required _ _ Htok Hall).
    rewrite (parse_fields_Ret data "45" (PyFloatParse.of_Z 45) "2024"
               (PyTime.mk_datetime 2024 1 1 13 5 0 0) 45000000
               (PyTime.mk_datetime 2024 1 1 13 5 45 0)).
    + split; [reflexivity |]. split; [reflexivity |]. split; reflexivity.
    + reflexivity.
    + rewrite (get_Some _ _ _ _ Hdate). reflexivity.
    + rewrite (get_Some _ _ _ _ Htime). reflexivity.
    + reflexivity.
    + reflexivity.
Qed.

Lemma full_date_fails_and_year_parses_witness :
  Convert.transform full_date_fields =
    ([LogErrorExc "Error parsing date, time, or execution time: " ValueError], Ret None)
  /\ exists r,
       Convert.transform year_fields = ([], Ret (Some r))
       /\ Convert.start_time r = PyTime.mk_datetime 2024 1 1 13 5 0 0
       /\ Convert.end_time r = PyTime.mk_datetime 2024 1 1 13 5 45 0.
Proof.
  split.
  - destruct (full_date_fails_and_year_parses full_date_fields) as [Hfail _].
    + apply all_required_insert, all_required_report_fields.
    + reflexivity.
    + reflexivity.
    + destruct (Hfail eq_refl) as [_ Htr]. exact Htr.
  - destruct (full_date_fails_and_year_parses year_fields) as [_ Hok].
    + apply all_required_insert, all_required_report_fields.
    + reflexivity.
    + reflexivity.
    + destruct (Hok eq_refl) as (r & Htr & Hs & He & _).
      exists r. split; [exact Htr |]. split; [exact Hs | exact He].
Defined.

(** ** The output tree *)

Section Tree.

Import PyTime.




End Tree.



(** ** Paths and their prefixes *)

Section Prefixes.

Import PosixPath.

Lemma prefix_refl s : String.prefix s s = true.
Proof.
  induction s as [|c s IH]; [reflexivity |].
  cbn [String.prefix]. destruct (ascii_dec c c); [exact IH | congruence].
Qed.

Lemma prefix_app p b : String.prefix p (p +:+ b) = true.
Proof.
  induction p as [|c p IH]; [destruct b; reflexivity |].
  change (String c p +:+ b) with (String c (p +:+ b)). cbn [String.prefix].
  destruct (ascii_dec c c); [exact IH | congruence].
Qed.

Lemma prefix_inv p s : String.prefix p s = true -> exists b, s = p +:+ b.
Proof.
  revert s. induction p as [|c p IH]; intros s.
  - exists s. reflexivity.
  - destruct s as [|d s]; cbn [String.prefix]; [discriminate |].
    destruct (ascii_dec c d) as [<- |]; [| discriminate].
    intros Hp. destruct (IH s Hp) as (b & ->). exists b. reflexivity.
Qed.

Lemma prefix_trans a b c :
  String.prefix a b = true -> String.prefix b c = true -> String.prefix a c = true.
Proof.
  intros (x & ->)%prefix_inv (y & ->)%prefix_inv.
  rewrite append_assoc. apply prefix_app.
Qed.

Lemma length_append (a b : string) :
  String.length (a +:+ b) = (String.length a + String.length b)%nat.
Proof.
  induction a as [|c a IH]; [reflexivity |].
  rewrite append_String. cbn [String.length]. rewrite IH. reflexivity.
Qed.

Lemma prefix_length a b :
  String.prefix a b = true -> (String.length a <= String.length b)%nat.
Proof. intros (x & ->)%prefix_inv. rewrite length_append. lia. Qed.

(** A path is its head up to the last slash and its base name. *)
Lemma split_at_last_sep_eq p :
  fst (split_at_last_sep p) +:+ snd (split_at_last_sep p) = p.
Proof.
  induction p as [|c p IH]; [reflexivity |].
  cbn [split_at_last_sep]. destruct (split_at_last_sep p) as [h t].
  cbn [fst snd] in IH.
  destruct h as [|d h]; cbn [PyStr.is_empty negb].
  - change ("" +:+ t) with t in IH. subst t.
    destruct (Ascii.eqb c "/"); reflexivity.
  - cbn [fst snd]. rewrite append_String, IH. reflexivity.
Qed.

Lemma rstrip_char_prefix a s : String.prefix (PyStr.rstrip_char a s) s = true.
Proof.
  induction s as [|c s IH]; [reflexivity |].
  cbn [PyStr.rstrip_char]. destruct (PyStr.rstrip_char a s) as [|d r] eqn:Hr.
  - destruct (Ascii.eqb c a); [reflexivity |].
    cbn [String.prefix]. destruct (ascii_dec c c); [| congruence].
    destruct s; reflexivity.
  - cbn [String.prefix]. destruct (ascii_dec c c); [exact IH | congruence].
Qed.

(** The head and the tail of [os.path.split]: the head is a prefix of the
    path, and with the tail it is no longer than the path. *)
Lemma split_prefix p :
  String.prefix (dirname p) p = true
  /\ (String.length (dirname p) + String.length (basename p)
      <= String.length p)%nat.
Proof.
  pose proof (split_at_last_sep_eq p) as Heq.
  unfold dirname, basename. destruct (split_at_last_sep p) as [h t].
  cbn [fst snd] in *.
  assert (Hh : String.prefix h p = true) by (rewrite <- Heq; apply prefix_app).
  assert (Hlen : (String.length h + String.length t <= String.length p)%nat).
  { rewrite <- Heq, length_append. lia. }
  destruct (_ && _).
  - pose proof (rstrip_char_prefix "/" h) as Hr. split.
    + exact (prefix_trans _ _ _ Hr Hh).
    + apply prefix_length in Hr. lia.
  - split; assumption.
Qed.

Lemma length_nonempty (s : string) : s <> "" -> (0 < String.length s)%nat.
Proof. destruct s; [congruence | cbn [String.length]; lia]. Qed.

Lemma is_empty_false (s : string) : PyStr.is_empty s = false -> s <> "".
Proof. destruct s; [discriminate | discriminate]. Qed.

(** The head with which [os.makedirs] calls itself is a prefix of the name
    and is shorter than the name. *)
Lemma split_name_head name head tail :
  split_name name = (head, tail) ->
  String.prefix head name = true
  /\ (tail <> "" -> (String.length head < String.length name)%nat).
Proof.
  unfold split_name, split.
  destruct (split_prefix name) as [Hp Hl].
  destruct (PyStr.is_empty (basename name)) eqn:He.
  - destruct (split_prefix (dirname name)) as [Hp' Hl'].
    intros [= <- <-]. split.
    + exact (prefix_trans _ _ _ Hp' Hp).
    + intros Ht%length_nonempty. apply prefix_length in Hp. lia.
  - intros [= <- <-]. split; [exact Hp |].
    intros Ht%length_nonempty. lia.
Qed.

End Prefixes.

(** ** The walk along a path *)

Section Walks.

Lemma dir_at_mono w w' absolute a :
  dirs w ⊆ dirs w' -> dir_at w absolute a = true -> dir_at w' absolute a = true.
Proof.
  unfold dir_at. intros Hsub [H | H%bool_decide_eq_true]%orb_true_iff;
    apply orb_true_iff; [left; exact H | right].
  apply bool_decide_eq_true. apply Hsub. exact H.
Qed.

Lemma descend_mono w w' absolute a path r :
  dirs w ⊆ dirs w' ->
  descend w absolute a path = At r -> descend w' absolute a path = At r.
Proof.
  intros Hsub. revert a. induction path as [|name rest IH]; intros a;
    cbn [descend]; [auto |].
  destruct (dir_at w absolute _) eqn:Hd.
  - rewrite (dir_at_mono _ _ _ _ Hsub Hd). apply IH.
  - destruct (bool_decide _); discriminate.
Qed.

Lemma descend_fold w absolute a path r :
  descend w absolute a path = At r ->
  r = fold_left (PosixPath.walk_step absolute) path a.
Proof.
  revert a. induction path as [|name rest IH]; intros a; cbn [descend fold_left].
  - intros [= <-]. reflexivity.
  - destruct (dir_at w absolute _); [apply IH |].
    destruct (bool_decide _); discriminate.
Qed.

Lemma locate_mono w w' p a :
  dirs w ⊆ dirs w' -> locate w p = At a -> locate w' p = At a.
Proof.
  unfold locate, parent_of. intros Hsub. destruct (PyStr.is_empty p); [discriminate |].
  destruct (descend w _ _ _) as [parent | e] eqn:Hw; [| discriminate].
  rewrite (descend_mono _ _ _ _ _ _ Hsub Hw). auto.
Qed.

(** What a walk finds is at the place of the path. *)
Lemma locate_place w p a :
  locate w p = At a ->
  render (PosixPath.is_absolute p) (List.rev a) = PosixPath.place p.
Proof.
  unfold locate, parent_of, PosixPath.place.
  destruct (PyStr.is_empty p); [discriminate |].
  destruct (descend w _ _ _) as [parent | e] eqn:Hw; [| discriminate].
  apply descend_fold in Hw. intros [= <-]. subst parent.
  destruct (PosixPath.names p) as [|n l] eqn:Hn; [reflexivity |].
  rewrite <- Hn.
  assert (Hne : PosixPath.names p <> []) by (rewrite Hn; discriminate).
  rewrite (app_removelast_last EmptyString Hne) at 3.
  rewrite fold_left_app. reflexivity.
Qed.

(** The walk looks at the directories and the files only. *)
Lemma descend_same w w' absolute a path :
  dirs w' = dirs w -> files w' = files w ->
  descend w' absolute a path = descend w absolute a path.
Proof.
  intros Hd Hf. revert a. induction path as [|name rest IH]; intros a;
    cbn [descend]; [reflexivity |].
  unfold dir_at, file_at. rewrite Hd, Hf, IH. reflexivity.
Qed.

Lemma locate_same w w' p :
  dirs w' = dirs w -> files w' = files w -> locate w' p = locate w p.
Proof.
  intros Hd Hf. unfold locate, parent_of.
  rewrite (descend_same w w' _ _ _ Hd Hf). reflexivity.
Qed.

Lemma stat_same w w' p :
  dirs w' = dirs w -> files w' = files w -> stat w' p = stat w p.
Proof.
  intros Hd Hf. unfold stat, dir_at, file_at.
  rewrite (locate_same w w' _ Hd Hf), Hd, Hf. reflexivity.
Qed.

Lemma creatable_same new_dir w w' p :
  dirs w' = dirs w -> files w' = files w ->
  creatable new_dir w' p = creatable new_dir w p.
Proof.
  intros Hd Hf. unfold creatable, dir_at, file_at.
  rewrite (locate_same w w' _ Hd Hf), Hd, Hf. reflexivity.
Qed.


Lemma exists_in_same w w' p :
  dirs w' = dirs w -> files w' = files w -> exists_in w' p = exists_in w p.
Proof. intros Hd Hf. unfold exists_in. rewrite (stat_same w w' _ Hd Hf). reflexivity. Qed.

(** A directory stays one when directories are made, and so does a file
    when none of them is made at the place of a file. *)
Lemma stat_dir_mono w w' p :
  dirs w ⊆ dirs w' -> stat w p = SDir -> stat w' p = SDir.
Proof.
  intros Hsub. unfold stat.
  destruct (locate w p) as [a | e] eqn:Hl; [| discriminate].
  rewrite (locate_mono _ _ _ _ Hsub Hl).
  destruct (dir_at w _ a) eqn:Hd.
  - rewrite (dir_at_mono _ _ _ _ Hsub Hd). reflexivity.
  - destruct (file_at w _ a); [destruct (_ || _) |]; discriminate.
Qed.

Lemma stat_file_mono w w' p content :
  files w' = files w -> dirs w ⊆ dirs w' ->
  (forall q, q ∈ dirs w' -> q ∈ dirs w \/ files w !! q = None) ->
  stat w p = SFile content -> stat w' p = SFile content.
Proof.
  intros Hf Hsub Hnew. unfold stat.
  destruct (locate w p) as [a | e] eqn:Hl; [| discriminate].
  rewrite (locate_mono _ _ _ _ Hsub Hl).
  destruct (dir_at w _ a) eqn:Hd; [discriminate |].
  destruct (file_at w _ a) as [c |] eqn:Hfile; [| discriminate].
  assert (Hd' : dir_at w' (PosixPath.is_absolute p) a = false).
  { revert Hd. unfold dir_at.
    intros [H1 H2%bool_decide_eq_false]%orb_false_iff.
    apply orb_false_iff. split; [exact H1 |]. apply bool_decide_eq_false.
    intros Hin. destruct (Hnew _ Hin) as [H | H]; [exact (H2 H) |].
    unfold file_at in Hfile. congruence. }
  rewrite Hd'. unfold file_at in *. rewrite Hf, Hfile. auto.
Qed.

(** The path at which a directory can be made, or a file written, is the
    place of the path; where a directory is made, nothing was. *)
Lemma creatable_place new_dir w p here :
  creatable new_dir w p = inr here -> here = PosixPath.place p.
Proof.
  unfold creatable. destruct (locate w p) as [a | e] eqn:Hl; [| discriminate].
  apply locate_place in Hl. rewrite Hl.
  repeat case_match; intros; simplify_eq; reflexivity.
Qed.

Lemma creatable_dir_free w p here :
  creatable true w p = inr here -> files w !! here = None.
Proof.
  unfold creatable. destruct (locate w p) as [a | e]; [| discriminate].
  unfold file_at. repeat case_match; intros; simplify_eq; assumption.
Qed.


End Walks.

(** ** The file system on the sample installation *)

(** The spellings of a path name one entry; a file is not a directory, so a
    path that goes through it, or names it with a trailing slash, finds
    [NotADirectoryError]. *)
Example stat_sample :
  stat sample_world "/data/line1/reports/r.html" = SFile " <html><table></table></html> "
  /\ stat sample_world "/data//line1/./reports/../reports/r.html"
     = SFile " <html><table></table></html> "
  /\ stat sample_world "/data/line1/reports/" = SDir
  /\ stat sample_world "/data/line1/reports/r.html/" = SMissing NotADirectoryError
  /\ stat sample_world "/data/line1/reports/r.html/x" = SMissing NotADirectoryError
  /\ stat sample_world "/data/line2/r.html" = SMissing FileNotFoundError
  /\ stat sample_world "" = SMissing FileNotFoundError
  /\ stat sample_world "/" = SDir /\ stat sample_world "." = SDir.
Proof. repeat split; vm_compute; reflexivity. Qed.

(** [os.makedirs] makes the missing parents, in one call of the program,
    and stops at the first directory that is refused. *)
Example makedirs_parents :
  let run := makedirs os_ok "a/b//c/" empty_world in
  fst run = Ret tt
  /\ elements (dirs (snd run)) = ["a/b/c"; "a/b"; "a"]
  /\ trace (snd run) = [EvMakedirs "a/b//c/"].
Proof. cbv zeta. repeat split; vm_compute; reflexivity. Qed.

Example makedirs_refused :
  let run := makedirs (os_refusing "a/b") "a/b/c" empty_world in
  fst run = Raise PermissionError /\ elements (dirs (snd run)) = ["a"].
Proof. cbv zeta. split; vm_compute; reflexivity. Qed.

Example makedirs_through_file :
  fst (makedirs os_ok "/data/line1/reports/r.html/x" sample_world)
  = Raise NotADirectoryError
  /\ fst (makedirs os_ok "/data/line1/reports/r.html" sample_world)
     = Raise FileExistsError
  /\ makedirs os_ok "/data/line1/reports" sample_world
     = (Ret tt, add_event (EvMakedirs "/data/line1/reports") sample_world).
Proof. repeat split; vm_compute; reflexivity. Qed.

(** A file is written at the place of its path, in a directory that is
    there. *)
Example open_write_sample :
  files (snd (open_write os_ok "/out/./r.xml" "text" sample_world))
  = <["/out/r.xml" := "text"]> (files sample_world)
  /\ open_write os_ok "/nowhere/r.xml" "text" sample_world
     = (Raise FileNotFoundError, add_event (EvOpenWrite "/nowhere/r.xml") sample_world).
Proof. split; vm_compute; reflexivity. Qed.

(** [shutil.move] into a directory keeps the base name and refuses to
    replace what is there. *)
Example move_sample :
  let src := "/data/line1/reports/r.html" in
  files (snd (move os_ok src "/out/" sample_world))
  = {["/out/r.html" := " <html><table></table></html> "]}
  /\ files (snd (move os_ok src "/out/new" sample_world))
     = {["/out/new" := " <html><table></table></html> "]}
  /\ fst (move os_ok src "/data/line1/reports" sample_world) = Raise ShutilError
  /\ fst (move os_ok "/data/line1/none.html" "/out" sample_world)
     = Raise FileNotFoundError.
Proof. cbv zeta. repeat split; vm_compute; reflexivity. Qed.

(** ** The runs of [main] *)

Section Runs.

Variable os : OS.
Variable BeautifulSoup : string -> Bs4.Node.
Variable Document : Type.
Variable tostring : ET.Element -> string.
Variable parseString : string -> PyResult Document.
Variable toprettyxml : Document -> string -> string.

Local Abbreviation html_to_xml :=
  (Convert.html_to_xml BeautifulSoup Document tostring parseString toprettyxml).
Local Abbreviation run_convert :=
  (convert BeautifulSoup Document tostring parseString toprettyxml).
Local Abbreviation run_main :=
  (main os BeautifulSoup Document tostring parseString toprettyxml).

(** *** [os.makedirs] *)

Lemma grown_refl p w : grown p w w.
Proof. repeat split; auto. Qed.

Lemma grown_add_dir p w here :
  creatable true w p = inr here -> grown p w (add_dir here w).
Proof.
  intros Hc. unfold grown, add_dir. cbn [dirs files log trace].
  repeat split; [apply union_subseteq_r |].
  intros q [->%elem_of_singleton | Hq]%elem_of_union; [right | left; exact Hq].
  split; [exact (creatable_dir_free _ _ _ Hc) |].
  exists p. split; [apply prefix_refl | exact (creatable_place _ _ _ _ Hc)].
Qed.

Lemma grown_trans q p w1 w2 w3 :
  String.prefix q p = true -> grown q w1 w2 -> grown p w2 w3 -> grown p w1 w3.
Proof.
  intros Hqp (Hf1 & Hl1 & Ht1 & Hd1 & Hn1) (Hf2 & Hl2 & Ht2 & Hd2 & Hn2).
  repeat split; try congruence.
  - etrans; eassumption.
  - intros x Hx. destruct (Hn2 x Hx) as [Hx2 | Hx2].
    + destruct (Hn1 x Hx2) as [Hx1 | (Hfree & h & Hh & ->)]; [auto |].
      right. split; [exact Hfree |].
      exists h. split; [exact (prefix_trans _ _ _ Hh Hqp) | reflexivity].
    + destruct Hx2 as (Hfree & h & Hh & ->).
      destruct (decide (PosixPath.place h ∈ dirs w1)) as [Hin | Hout]; [auto |].
      right. split; [congruence |]. exists h. auto.
Qed.

Lemma mkdir_grown p w r w' : mkdir os p w = (r, w') -> grown p w w'.
Proof.
  unfold mkdir. destruct (mkdir_fault os p).
  - intros [= <- <-]. apply grown_refl.
  - destruct (creatable true w p) as [e | here] eqn:Hc; intros [= <- <-].
    + apply grown_refl.
    + exact (grown_add_dir _ _ _ Hc).
Qed.

(** The last step of [os.makedirs]: the [os.mkdir] of the name, with
    [exist_ok=True]. *)
Lemma mkdir_exist_ok_grown p w r w' :
  try_except (mkdir os p) is_OSError
    (fun e w => if is_dir w p then (Ret tt, w) else (Raise e, w)) w = (r, w') ->
  grown p w w'.
Proof.
  unfold try_except. destruct (mkdir os p w) as [[[]|e] w1] eqn:Hmk.
  - intros [= <- <-]. exact (mkdir_grown _ _ _ _ Hmk).
  - apply mkdir_grown in Hmk.
    destruct (is_OSError e); [destruct (is_dir w1 p) |]; intros [= <- <-]; exact Hmk.
Qed.

Lemma makedirs_rec_grown n name w r w' :
  makedirs_rec os n name w = (r, w') -> grown name w w'.
Proof.
  revert name w r w'. induction n as [|n IH]; intros name w r w';
    cbn [makedirs_rec]; destruct (split_name name) as [head tail] eqn:Hsplit;
    destruct (split_name_head _ _ _ Hsplit) as [Hprefix _];
    unfold bind at 1; destruct (_ && _).
  - unfold bind, path_exists, ret. destruct (exists_in w head).
    + apply mkdir_exist_ok_grown.
    + destruct (String.eqb tail ".").
      * intros [= <- <-]. apply grown_refl.
      * apply mkdir_exist_ok_grown.
  - unfold ret. apply mkdir_exist_ok_grown.
  - unfold bind, path_exists, ret. destruct (exists_in w head).
    + apply mkdir_exist_ok_grown.
    + unfold try_except at 1.
      destruct (makedirs_rec os n head w) as [[[]|e] w1] eqn:Hrec;
        apply IH in Hrec.
      * destruct (String.eqb tail ".").
        -- intros [= <- <-]. exact (grown_trans _ _ _ _ _ Hprefix Hrec (grown_refl _ _)).
        -- intros Hmk%mkdir_exist_ok_grown.
           exact (grown_trans _ _ _ _ _ Hprefix Hrec Hmk).
      * destruct (bool_decide (e = FileExistsError)).
        -- destruct (String.eqb tail ".").
           ++ intros [= <- <-].
              exact (grown_trans _ _ _ _ _ Hprefix Hrec (grown_refl _ _)).
           ++ intros Hmk%mkdir_exist_ok_grown.
              exact (grown_trans _ _ _ _ _ Hprefix Hrec Hmk).
        -- intros [= <- <-].
           exact (grown_trans _ _ _ _ _ Hprefix Hrec (grown_refl _ _)).
  - unfold ret. apply mkdir_exist_ok_grown.
Qed.

(** The fuel that [makedirs] gives is enough: more of it changes
    nothing. *)
Lemma makedirs_rec_fuel n m name w :
  (String.length name <= n)%nat -> (String.length name <= m)%nat ->
  makedirs_rec os n name w = makedirs_rec os m name w.
Proof.
  revert m name w. induction n as [|n IH]; intros [|m] name w Hn Hm;
    cbn [makedirs_rec]; destruct (split_name name) as [head tail] eqn:Hsplit;
    destruct (split_name_head _ _ _ Hsplit) as [_ Hshort];
    try reflexivity;
    unfold bind at 1 3; destruct (_ && _) eqn:Hc; try reflexivity;
    apply andb_prop in Hc as [_ Ht%negb_true_iff%is_empty_false];
    specialize (Hshort Ht);
    unfold bind, path_exists; destruct (exists_in w head); try reflexivity;
    try lia.
  unfold try_except. rewrite (IH m head w) by lia. reflexivity.
Qed.

(** What [os.makedirs] changes: it makes one call, and only directories are
    new, each of them a prefix of the path. *)
Lemma makedirs_spec p w r w' :
  makedirs os p w = (r, w') ->
  files w' = files w /\ log w' = log w
  /\ trace w' = (trace w ++ [EvMakedirs p])%list
  /\ dirs w ⊆ dirs w'
  /\ (forall q, q ∈ dirs w' ->
        q ∈ dirs w
        \/ (files w !! q = None
            /\ exists h, String.prefix h p = true /\ q = PosixPath.place h)).
Proof.
  unfold makedirs, bind, emit. intros H%makedirs_rec_grown.
  destruct H as (Hf & Hl & Ht & Hd & Hn). auto.
Qed.



(** *** The steps of [main] *)

Ltac unfold_steps :=
  unfold create_output_dir, create_archive_dir, write_output, move_to_archive,
    convert, read_html_file, open_read, open_write, remove, move,
    call, path_exists, try_except, bind, logging, emit, ret, raise,
    add_log, add_logs, add_event, add_dir, set_files;
  cbn [dirs files log trace fst snd].

Ltac use_makedirs :=
  repeat match goal with
         | H : makedirs _ _ _ = (_, _) |- _ =>
             apply makedirs_spec in H as (? & ? & ? & ? & ?)
         end.

Ltac solve_step :=
  unfold_steps; repeat case_match; intros; simplify_eq; use_makedirs;
  cbn [dirs files log trace fst snd] in *; try reflexivity; try discriminate;
  try congruence.

(** The steps before the output is written leave the files as they are. *)
Lemma files_create_output_dir p w : files (snd (create_output_dir os p w)) = files w.
Proof. solve_step. Qed.




Lemma dirs_read_html_file p w : dirs (snd (read_html_file os p w)) = dirs w.
Proof. solve_step. Qed.

Lemma dirs_convert html w : dirs (snd (run_convert html w)) = dirs w.
Proof. solve_step. Qed.

Lemma dirs_write_output p xml w : dirs (snd (write_output os p xml w)) = dirs w.
Proof. solve_step. Qed.

(** The exit codes that each step can return. *)
Lemma code_create_output_dir p w c :
  fst (create_output_dir os p w) = Ret (Some c) -> c = CREATE_DIR_ERROR.
Proof. solve_step. Qed.

Lemma code_create_archive_dir p w c :
  fst (create_archive_dir os p w) = Ret (Some c) -> c = CREATE_DIR_ERROR.
Proof. solve_step. Qed.

Lemma code_write_output p xml w c :
  fst (write_output os p xml w) = Ret (Some c) -> c = WRITE_XML_ERROR.
Proof. solve_step. Qed.














(** The directories after the creation of a directory: none is lost, and
    the new ones are at the places of prefixes of the path, where no file
    is. *)
Lemma dirs_create_output_dir p w :
  dirs w ⊆ dirs (snd (create_output_dir os p w))
  /\ (forall q, q ∈ dirs (snd (create_output_dir os p w)) ->
        q ∈ dirs w
        \/ (files w !! q = None
            /\ exists h, String.prefix h p = true /\ q = PosixPath.place h)).
Proof.
  unfold_steps. repeat case_match; simplify_eq; use_makedirs;
    cbn [dirs fst snd]; auto.
Qed.

Lemma dirs_create_archive_dir p w :
  dirs w ⊆ dirs (snd (create_archive_dir os p w))
  /\ (forall q, q ∈ dirs (snd (create_archive_dir os p w)) ->
        q ∈ dirs w
        \/ (files w !! q = None
            /\ exists h, String.prefix h p = true /\ q = PosixPath.place h)).
Proof.
  unfold_steps. repeat case_match; simplify_eq; use_makedirs;
    cbn [dirs fst snd]; auto.
Qed.


(** The ways a run of [main] ends: at one of its six steps, after the
    steps before it have gone through. *)
Lemma main_inv args w r w' :
  run_main args w = (r, w') ->
  (exists r1, create_output_dir os (dir2 args) w = (r1, w') /\ returned r1 r)
  \/ exists w1,
    create_output_dir os (dir2 args) w = (Ret None, w1)
    /\ ((exists r2, read_html_file os (dir1 args) w1 = (r2, w')
                    /\ gave_up r2 READ_HTML_ERROR r)
        \/ exists html w2,
          read_html_file os (dir1 args) w1 = (Ret (Some html), w2)
          /\ ((exists r3, run_convert html w2 = (r3, w')
                          /\ gave_up r3 PARSE_XML_ERROR r)
              \/ exists xml w3,
                run_convert html w2 = (Ret (Some xml), w3)
                /\ ((exists r4, write_output os (output_xml_file_of args) xml w3 = (r4, w')
                                /\ returned r4 r)
                    \/ exists w4,
                      write_output os (output_xml_file_of args) xml w3 = (Ret None, w4)
                      /\ ((exists r5,
                             create_archive_dir os (archive_dir_of args) w4 = (r5, w')
                             /\ returned r5 r)
                          \/ exists w5,
                            create_archive_dir os (archive_dir_of args) w4 = (Ret None, w5)
                            /\ move_to_archive os (dir1 args) (archive_dir_of args) w5
                               = (r, w'))))).
Proof.
  unfold main, bind, ret. intros Hrun.
  destruct (create_output_dir os _ _) as [[[c|]|e] w1] eqn:H1.
  { injection Hrun as <- <-. left. eexists. split; [reflexivity |].
    left. eauto. }
  2: { injection Hrun as <- <-. left. eexists. split; [reflexivity |].
       right. eauto. }
  right. exists w1. split; [reflexivity |].
  destruct (read_html_file os _ w1) as [[[html|]|e] w2] eqn:H2.
  2: { injection Hrun as <- <-. left. eexists. split; [reflexivity |].
       left. eauto. }
  2: { injection Hrun as <- <-. left. eexists. split; [reflexivity |].
       right. eauto. }
  right. exists html, w2. split; [reflexivity |].
  destruct (convert _ _ _ _ _ html w2) as [[[xml|]|e] w3] eqn:H3.
  2: { injection Hrun as <- <-. left. eexists. split; [reflexivity |].
       left. eauto. }
  2: { injection Hrun as <- <-. left. eexists. split; [reflexivity |].
       right. eauto. }
  right. exists xml, w3. split; [reflexivity |].
  destruct (write_output os _ xml w3) as [[[c|]|e] w4] eqn:H4.
  { injection Hrun as <- <-. left. eexists. split; [reflexivity |].
    left. eauto. }
  2: { injection Hrun as <- <-. left. eexists. split; [reflexivity |].
       right. eauto. }
  right. exists w4. split; [reflexivity |].
  destruct (create_archive_dir os _ w4) as [[[c|]|e] w5] eqn:H5.
  { injection Hrun as <- <-. left. eexists. split; [reflexivity |].
    left. eauto. }
  2: { injection Hrun as <- <-. left. eexists. split; [reflexivity |].
       right. eauto. }
  right. exists w5. split; [reflexivity | exact Hrun].
Qed.

Ltac use_run lem H :=
  let F := fresh "F" in pose proof lem as F; rewrite H in F; cbn [fst snd] in F.



(** A step that returns an exit code returns its own. *)
Lemma returned_output_dir p w r1 w1 r :
  create_output_dir os p w = (r1, w1) -> returned r1 r ->
  ended_with CREATE_DIR_ERROR r.
Proof.
  intros H [(c & -> & ->) | (e & -> & ->)]; [left | right; eauto].
  use_run (code_create_output_dir p w c) H. rewrite F; reflexivity.
Qed.

Lemma returned_archive_dir p w r1 w1 r :
  create_archive_dir os p w = (r1, w1) -> returned r1 r ->
  ended_with CREATE_DIR_ERROR r.
Proof.
  intros H [(c & -> & ->) | (e & -> & ->)]; [left | right; eauto].
  use_run (code_create_archive_dir p w c) H. rewrite F; reflexivity.
Qed.

Lemma returned_write_output p xml w r1 w1 r :
  write_output os p xml w = (r1, w1) -> returned r1 r ->
  ended_with WRITE_XML_ERROR r.
Proof.
  intros H [(c & -> & ->) | (e & -> & ->)]; [left | right; eauto].
  use_run (code_write_output p xml w c) H. rewrite F; reflexivity.
Qed.


Ltac no_code :=
  match goal with
  | H : ended_with _ _ |- _ => unfold ended_with in H; no_code
  | H : _ \/ _ |- _ => destruct H as [H | H]; no_code
  | H : _ /\ _ |- _ => destruct H as [? ?]; no_code
  | H : exists _, _ |- _ => destruct H as [? H]; no_code
  | _ => congruence
  end.

(** A run that returns [ARCHIVE_ERROR] has ended in the move of the
    source, after every other step has gone through. *)
Lemma main_archive_error_inv args w w' :
  run_main args w = (Ret ARCHIVE_ERROR, w') ->
  exists w5,
    move_to_archive os (dir1 args) (archive_dir_of args) w5 = (Ret ARCHIVE_ERROR, w').
Proof.
  intros Hrun.
  destruct (main_inv _ _ _ _ Hrun)
    as [(r1 & H1 & S1) | (w1 & H1 & [(r2 & H2 & S2) | (html & w2 & H2 &
       [(r3 & H3 & S3) | (xml & w3 & H3 & [(r4 & H4 & S4) | (w4 & H4 &
       [(r5 & H5 & S5) | (w5 & H5 & H6)])])])])].
  - pose proof (returned_output_dir _ _ _ _ _ H1 S1). no_code.
  - destruct S2 as [[_ ?] | (e & _ & ?)]; congruence.
  - destruct S3 as [[_ ?] | (e & _ & ?)]; congruence.
  - pose proof (returned_write_output _ _ _ _ _ _ H4 S4). no_code.
  - pose proof (returned_archive_dir _ _ _ _ _ H5 S5). no_code.
  - exists w5. exact H6.
Qed.

(** *** The steps under known conditions *)

Lemma create_archive_dir_refused p w e w' :
  exists_in w p = false -> makedirs os p w = (Raise e, w') -> is_OSError e = true ->
  create_archive_dir os p w =
    (Ret (Some CREATE_DIR_ERROR),
     add_log (LogErrorExc ("Failed to create archive directory " +:+ p +:+ ": ") e) w').
Proof. unfold_steps. intros -> Hm He. cbn [negb]. rewrite Hm, He. reflexivity. Qed.

Lemma is_dir_absent w p : exists_in w p = false -> is_dir w p = false.
Proof. unfold exists_in, is_dir. destruct (stat w p); [discriminate | discriminate | reflexivity]. Qed.

Lemma stat_add_event w ev p : stat (add_event ev w) p = stat w p.
Proof. apply stat_same; reflexivity. Qed.



Lemma read_html_file_content p w raw :
  read_fault os p = None -> stat w p = SFile raw ->
  PyStr.strip (PyStr.universal_newlines raw) <> "" ->
  read_html_file os p w =
    (Ret (Some (PyStr.strip (PyStr.universal_newlines raw))), add_event (EvOpenRead p) w).
Proof.
  intros Hfault Hst Hne.
  unfold read_html_file, open_read, try_except, bind, emit, logging, ret.
  rewrite Hfault, stat_add_event, Hst.
  destruct (PyStr.strip _); [congruence | reflexivity].
Qed.

Lemma convert_eq html w :
  run_convert html w =
    (snd (html_to_xml html), add_logs (fst (html_to_xml html)) (add_event EvConvert w)).
Proof. reflexivity. Qed.

(** A file that is there before the creation of a directory is there
    after it. *)
Lemma stat_file_create_output_dir p w q content :
  stat w q = SFile content ->
  stat (snd (create_output_dir os p w)) q = SFile content.
Proof.
  destruct (dirs_create_output_dir p w) as [Hsub Hnew].
  apply stat_file_mono; [apply files_create_output_dir | exact Hsub |].
  intros x Hx. destruct (Hnew _ Hx) as [? | [? _]]; auto.
Qed.











(** A run returns [ARCHIVE_ERROR] only from the [except] clause of line
    230: after a [PermissionError] or a [FileNotFoundError] of the removal
    of the archived copy or of the move. *)
Lemma move_to_archive_error src dst w w' :
  move_to_archive os src dst w = (Ret ARCHIVE_ERROR, w') ->
  exists e w1 evs,
    (e = PermissionError \/ e = FileNotFoundError)
    /\ w' = add_log (LogErrorExc ("Failed to archive HTML file " +:+ src +:+ ": ") e) w1
    /\ trace w1 = (trace w ++ evs)%list
    /\ (evs = [EvRemove (PosixPath.join dst (PosixPath.basename src))]
        \/ evs = [EvMove src dst]
        \/ evs = [EvRemove (PosixPath.join dst (PosixPath.basename src)); EvMove src dst]).
Proof.
  unfold_steps. repeat case_match; intros; simplify_eq;
    match goal with
    | H : bool_decide (?e = PermissionError) || bool_decide (?e = FileNotFoundError) = true
      |- _ =>
        exists e; eexists; eexists;
        split; [apply orb_prop in H as [H | H]; apply bool_decide_eq_true in H; auto |];
        split; [reflexivity |]; cbn [trace];
        split; [first [reflexivity | rewrite <- app_assoc; reflexivity] |];
        cbn [app]; auto
    end.
Qed.

(** C1, amended. In every run in which the steps before archiving go
    through and the archive directory is absent and cannot be created
    ([os.makedirs] raises an [OSError]), [main] logs the failure and returns
    [CREATE_DIR_ERROR], whose value is 1: the call of [os.makedirs] is the
    last one and no file is removed or moved. [ARCHIVE_ERROR], whose value
    is 5, is returned only after a [PermissionError] or [FileNotFoundError]
    of the removal of the archived copy or of the move of the source. *)
Theorem archive_dir_failure_returns_create_dir_error
    args w w1 html w2 xml w3 w4 e w5 :
  create_output_dir os (dir2 args) w = (Ret None, w1) ->
  read_html_file os (dir1 args) w1 = (Ret (Some html), w2) ->
  run_convert html w2 = (Ret (Some xml), w3) ->
  write_output os (output_xml_file_of args) xml w3 = (Ret None, w4) ->
  exists_in w4 (archive_dir_of args) = false ->
  makedirs os (archive_dir_of args) w4 = (Raise e, w5) ->
  is_OSError e = true ->
  run_main args w =
    (Ret CREATE_DIR_ERROR,
     add_log (LogErrorExc ("Failed to create archive directory "
                           +:+ archive_dir_of args +:+ ": ") e) w5)
  /\ trace w5 = (trace w4 ++ [EvMakedirs (archive_dir_of args)])%list
  /\ files w5 = files w4
  /\ log w5 = log w4
  /\ value CREATE_DIR_ERROR = 1
  /\ value ARCHIVE_ERROR = 5
  /\ (forall v v', run_main args v = (Ret ARCHIVE_ERROR, v') ->
        exists e' v1 v2 evs,
          (e' = PermissionError \/ e' = FileNotFoundError)
          /\ v' = add_log (LogErrorExc ("Failed to archive HTML file "
                                        +:+ dir1 args +:+ ": ") e') v2
          /\ trace v2 = (trace v1 ++ evs)%list
          /\ (evs = [EvRemove (PosixPath.join (archive_dir_of args)
                                 (PosixPath.basename (dir1 args)))]
              \/ evs = [EvMove (dir1 args) (archive_dir_of args)]
              \/ evs = [EvRemove (PosixPath.join (archive_dir_of args)
                                    (PosixPath.basename (dir1 args)));
                        EvMove (dir1 args) (archive_dir_of args)])).
Proof.
  intros H1 H2 H3 H4 Hex Hmk He.
  destruct (makedirs_spec _ _ _ _ Hmk) as (Hf & Hl & Ht & _).
  split; [| split; [exact Ht | split; [exact Hf | split; [exact Hl |
    split; [reflexivity | split; [reflexivity |]]]]]].
  - unfold main, bind. rewrite H1, H2, H3, H4.
    rewrite (create_archive_dir_refused _ _ _ _ Hex Hmk He). reflexivity.
  - intros v v' Hrun.
    apply main_archive_error_inv in Hrun as (v5 & Hmove).
    apply move_to_archive_error in Hmove as (e' & v2 & evs & He' & Hv' & Htr & Hevs).
    exists e', v5, v2, evs. auto.
Qed.

(** What the conversion raises, [html_to_xml] raises and [main] lets
    through. *)
Lemma html_to_xml_raises html l e :
  Convert.transform (Convert.extract_data (BeautifulSoup html)) = (l, Raise e) ->
  html_to_xml html = (l, Raise e).
Proof.
  unfold Convert.html_to_xml, Convert.to_tree. intros ->. reflexivity.
Qed.

(** What [html_to_xml] returns as text is the tree of the report, written
    by [prettify_xml]. *)
Lemma html_to_xml_Some html l xml :
  html_to_xml html = (l, Ret (Some xml)) ->
  exists root doc,
    Convert.to_tree (Convert.extract_data (BeautifulSoup html)) = (l, Ret (Some root))
    /\ parseString (tostring root) = Ret doc
    /\ xml = toprettyxml doc "  ".
Proof.
  unfold Convert.html_to_xml, Convert.prettify_xml.
  destruct (Convert.to_tree _) as [l' [[root|]|e]]; cbn [py_bind];
    try (intros [= _ ?]; discriminate).
  destruct (parseString (tostring root)) as [doc|e] eqn:Hdoc; cbn [py_bind];
    intros [= <- <-].
  exists root, doc. auto.
Qed.

(** The text that [main] hands to [html_to_xml]: the content of the
    source, with its line ends read as LF and without the white space at
    its ends. *)
Lemma main_reads_source args w raw :
  fst (create_output_dir os (dir2 args) w) = Ret None ->
  read_fault os (dir1 args) = None ->
  stat w (dir1 args) = SFile raw ->
  PyStr.strip (PyStr.universal_newlines raw) <> "" ->
  exists w2,
    run_main args w =
      (match run_convert (PyStr.strip (PyStr.universal_newlines raw)) w2 with
       | (Ret None, w3) => (Ret PARSE_XML_ERROR, w3)
       | (Ret (Some xml), w3) =>
           bind (write_output os (output_xml_file_of args) xml)
             (fun early =>
                match early with
                | Some c => ret c
                | None =>
                    bind (create_archive_dir os (archive_dir_of args))
                      (fun early =>
                         match early with
                         | Some c => ret c
                         | None => move_to_archive os (dir1 args) (archive_dir_of args)
                         end)
                end) w3
       | (Raise e, w3) => (Raise e, w3)
       end)
    /\ files w2 = files w
    /\ w2 = add_event (EvOpenRead (dir1 args)) (snd (create_output_dir os (dir2 args) w)).
Proof.
  intros Hgo Hfault Hraw Hne.
  pose proof (files_create_output_dir (dir2 args) w) as Hf1.
  pose proof (stat_file_create_output_dir (dir2 args) w (dir1 args) raw Hraw) as Hst1.
  unfold main. unfold bind at 1.
  destruct (create_output_dir os (dir2 args) w) as [r1 w1]. cbn [fst snd] in *.
  subst r1. unfold bind at 1.
  rewrite (read_html_file_content _ w1 raw Hfault Hst1 Hne).
  eexists. split; [| split; [| reflexivity]].
  - unfold bind at 1. destruct (run_convert _ _) as [[[xml|]|e] w3]; reflexivity.
  - exact Hf1.
Qed.

Lemma main_conversion_raises args w raw l e :
  fst (create_output_dir os (dir2 args) w) = Ret None ->
  read_fault os (dir1 args) = None ->
  stat w (dir1 args) = SFile raw ->
  PyStr.strip (PyStr.universal_newlines raw) <> "" ->
  html_to_xml (PyStr.strip (PyStr.universal_newlines raw)) = (l, Raise e) ->
  fst (run_main args w) = Raise e.
Proof.
  intros Hgo Hfault Hraw Hne Hconv.
  destruct (main_reads_source args w raw Hgo Hfault Hraw Hne) as (w2 & -> & _).
  rewrite convert_eq, Hconv. reflexivity.
Qed.

(** C10. With the six required fields present, a blank Execution Time
    (empty or white space only) makes line 89 raise [IndexError], and a
    blank Date makes line 101 raise it once Execution Time has parsed as a
    number. The [except] clause of line 103 does not catch it, so
    [html_to_xml] raises instead of returning [None], and [main], which
    catches nothing around the call, ends with the exception and with none
    of its exit codes. *)
Theorem blank_field_raises_index_error (data : gmap string string) :
  Convert.all_required data ->
  (forall v, data !! "Execution Time" = Some v -> PyStr.lstrip v = "" ->
     Convert.transform data = ([], Raise IndexError))
  /\ (forall v tok x,
        data !! "Date" = Some v -> PyStr.lstrip v = "" ->
        PyStr.first (PyStr.split (Convert.get data "Execution Time" "0 seconds"))
          = Ret tok ->
        PyFloatParse.float tok = Some x ->
        Convert.transform data = ([], Raise IndexError))
  /\ Convert.caught IndexError = false
  /\ (forall args w raw,
        Convert.transform data = ([], Raise IndexError) ->
        Convert.extract_data
          (BeautifulSoup (PyStr.strip (PyStr.universal_newlines raw))) = data ->
        fst (create_output_dir os (dir2 args) w) = Ret None ->
        read_fault os (dir1 args) = None ->
        stat w (dir1 args) = SFile raw ->
        PyStr.strip (PyStr.universal_newlines raw) <> "" ->
        html_to_xml (PyStr.strip (PyStr.universal_newlines raw)) = ([], Raise IndexError)
        /\ fst (run_main args w) = Raise IndexError
        /\ forall c, fst (run_main args w) <> Ret c).
Proof.
  intros Hall. split; [| split; [| split; [reflexivity |]]].
  - intros v Hv Hblank. unfold Convert.transform.
    rewrite (get_Some _ _ _ _ Hv), (split_blank _ Hblank). reflexivity.
  - intros v tok x Hv Hblank Htok Hx.
    rewrite (transform_all_required _ _ Htok Hall).
    unfold Convert.parse_fields. rewrite Hx. cbn [Convert.of_option py_bind].
    rewrite (get_Some _ _ _ _ Hv), (split_blank _ Hblank). reflexivity.
  - intros args w raw Htr Hdata Hout Hfault Hraw Hne.
    assert (Hconv : html_to_xml (PyStr.strip (PyStr.universal_newlines raw))
                    = ([], Raise IndexError)).
    { apply html_to_xml_raises. rewrite Hdata. exact Htr. }
    pose proof (main_conversion_raises args w raw [] IndexError
                  Hout Hfault Hraw Hne Hconv) as Hmain.
    split; [exact Hconv |]. split; [exact Hmain |].
    intros c. rewrite Hmain. discriminate.
Qed.

End Runs.

(** C1, as the specification states it: it fails. The archive directory of
    the sample report is absent and the system refuses to create it; [main]
    returns [CREATE_DIR_ERROR], whose value is 1 and not 5. *)
Lemma archive_dir_failure_is_not_exit_5 :
  let os := os_refusing "/data/line1/arhiiv" in
  exists_in sample_world (archive_dir_of sample_args) = false
  /\ mkdir_fault os (archive_dir_of sample_args) = Some PermissionError
  /\ fst (makedirs os (archive_dir_of sample_args) sample_world) = Raise PermissionError
  /\ fst (sample_main os "Friday 2024" sample_args sample_world) = Ret CREATE_DIR_ERROR
  /\ value CREATE_DIR_ERROR <> value ARCHIVE_ERROR
  /\ value ARCHIVE_ERROR = 5.
Proof.
  cbv zeta. repeat split; try (vm_compute; reflexivity). discriminate.
Qed.

Lemma archive_dir_failure_returns_create_dir_error_witness :
  fst (sample_main (os_refusing "/data/line1/arhiiv") "Friday 2024"
         sample_args sample_world) = Ret CREATE_DIR_ERROR
  /\ value CREATE_DIR_ERROR = 1.
Proof.
  pose (os := os_refusing "/data/line1/arhiiv").
  pose (w1 := snd (create_output_dir os (dir2 sample_args) sample_world)).
  pose (r2 := read_html_file os (dir1 sample_args) w1).
  pose (html := "<html><table></table></html>").
  pose (r3 := convert (sample_parser "Friday 2024") string sample_tostring
                sample_parseString sample_toprettyxml html (snd r2)).
  pose (r4 := write_output os (output_xml_file_of sample_args) "<UGSTesterCom/>" (snd r3)).
  pose (r5 := makedirs os (archive_dir_of sample_args) (snd r4)).
  destruct (archive_dir_failure_returns_create_dir_error
              os (sample_parser "Friday 2024") string sample_tostring
              sample_parseString sample_toprettyxml sample_args sample_world
              w1 html (snd r2) "<UGSTesterCom/>" (snd r3) (snd r4) PermissionError
              (snd r5))
    as (Hrun & _ & _ & _ & Hvalue & _).
  - vm_compute. reflexivity.
  - vm_compute. reflexivity.
  - vm_compute. reflexivity.
  - vm_compute. reflexivity.
  - vm_compute. reflexivity.
  - vm_compute. reflexivity.
  - reflexivity.
  - split; [| exact Hvalue]. unfold sample_main. fold os. rewrite Hrun. reflexivity.
Defined.



(** The creation of the output directory makes its parents too: when the
    source is named as a parent of the output directory, the read finds a
    directory, and [main] lets the [IsADirectoryError] through. *)
Example source_is_parent_of_output_dir :
  let run := sample_main os_ok "Friday 2024" (mk_args "out" "out/xml" None) empty_world in
  fst run = Raise IsADirectoryError
  /\ trace (snd run) = [EvMakedirs "out/xml"; EvOpenRead "out"]
  /\ is_dir (snd run) "out" = true /\ is_dir (snd run) "out/xml" = true.
Proof. cbv zeta. repeat split; vm_compute; reflexivity. Qed.

Lemma blank_field_raises_index_error_witness :
  Convert.transform (<["Execution Time" := "   "]> (report_fields "Friday 2024" "13.05.00"))
    = ([], Raise IndexError)
  /\ Convert.transform (report_fields "" "13.05.00") = ([], Raise IndexError)
  /\ fst (sample_main os_ok " " sample_args sample_world) = Raise IndexError.
Proof.
  split; [| split].
  - destruct (blank_field_raises_index_error
                os_ok (sample_parser " ") string sample_tostring sample_parseString
                sample_toprettyxml
                (<["Execution Time" := "   "]> (report_fields "Friday 2024" "13.05.00")))
      as (Hexec & _).
    + apply all_required_insert, all_required_report_fields.
    + apply (Hexec "   "); reflexivity.
  - destruct (blank_field_raises_index_error
                os_ok (sample_parser " ") string sample_tostring sample_parseString
                sample_toprettyxml (report_fields "" "13.05.00"))
      as (_ & Hdate & _).
    + apply all_required_report_fields.
    + apply (Hdate "" "0" (S754_zero false)); reflexivity.
  - pose (data := Convert.extract_data (document (sample_rows " "))).
    destruct (blank_field_raises_index_error
                os_ok (sample_parser " ") string sample_tostring sample_parseString
                sample_toprettyxml data)
      as (_ & Hdate & _ & Hmain).
    + apply all_required_first_missing. vm_compute. reflexivity.
    + destruct (Hmain sample_args sample_world " <html><table></table></html> ")
        as (_ & Hrun & _).
      * apply (Hdate "" "45" (PyFloatParse.of_Z 45)); vm_compute; reflexivity.
      * reflexivity.
      * vm_compute. reflexivity.
      * reflexivity.
      * vm_compute. reflexivity.
      * vm_compute. discriminate.
      * exact Hrun.
Defined.

(** ** The archive directory *)

Section ArchiveDir.

Import PosixPath.






















End ArchiveDir.




(** ** The rows of the report *)

Section Rows.

Implicit Types (data : gmap string string) (r : Bs4.Node).

Lemma extract_row_two_cells data r c0 c1 :
  Bs4.find_all "td" r = [c0; c1] ->
  Convert.extract_row data r =
    <[PyStr.replace ":" "" (PyStr.strip (Bs4.text c0)) := PyStr.strip (Bs4.text c1)]> data.
Proof. unfold Convert.extract_row. intros ->. reflexivity. Qed.

(** A row leaves the keys other than its own as they are. *)
Lemma extract_row_other data r key :
  row_key r <> Some key -> Convert.extract_row data r !! key = data !! key.
Proof.
  unfold row_key, Convert.extract_row.
  destruct (Bs4.find_all "td" r) as [|c0 [|c1 [|c2 cs]]]; try reflexivity.
  intros Hne. apply lookup_insert_ne. congruence.
Qed.

Lemma extract_rows_other rows data key :
  (forall r, r ∈ rows -> row_key r <> Some key) ->
  fold_left Convert.extract_row rows data !! key = data !! key.
Proof.
  revert data. induction rows as [|r rows IH]; intros data Hrows; [reflexivity |].
  cbn [fold_left]. rewrite IH.
  - apply extract_row_other, Hrows. left.
  - intros r' Hin. apply Hrows. right. exact Hin.
Qed.

Lemma replace_colon_has_no_colon s :
  has_char ":" (PyStr.replace ":" "" s) = false.
Proof.
  induction s as [|c s IH]; [reflexivity |].
  cbn [PyStr.replace]. destruct (Ascii.eqb c ":") eqn:Hc.
  - exact IH.
  - cbn [has_char]. rewrite Hc, IH. reflexivity.
Qed.

Lemma replace_colon_id s :
  has_char ":" s = false -> PyStr.replace ":" "" s = s.
Proof.
  induction s as [|c s IH]; [reflexivity |].
  cbn [has_char PyStr.replace]. intros [Hc Hs]%orb_false_elim.
  rewrite Hc, (IH Hs). reflexivity.
Qed.

End Rows.

(** C4, as the specification states it: it fails. The header "Start:Time"
    does not end with a colon, yet the key that the row sets is "StartTime";
    and a row with two cells as children, one of which holds a table, has
    more than two cells below it and sets no key. *)
Lemma inner_colon_removed_and_nested_row_skipped :
  length (child_cells inner_colon_row) = 2%nat
  /\ strip_trailing_colon (PyStr.strip "Start:Time") = "Start:Time"
  /\ Convert.extract_row ∅ inner_colon_row !! "Start:Time" = None
  /\ Convert.extract_row ∅ inner_colon_row !! "StartTime" = Some "x"
  /\ length (child_cells nested_row) = 2%nat
  /\ Convert.extract_row ∅ nested_row = ∅.
Proof. repeat split; vm_compute; reflexivity. Qed.

(** C4, amended. For every row below which there are exactly two cells, at
    any depth, the loop maps the trimmed text of the first cell with every
    colon removed to the trimmed text of the second cell, and the dictionary
    holds that unless a later row sets the same key. The key has no colon;
    a header without colon is its own key, and "Station ID:" gives
    "Station ID". *)
Theorem two_cell_row_sets_header_without_colons
    (soup : Bs4.Node) (pre : list Bs4.Node) (r : Bs4.Node) (post : list Bs4.Node)
    (c0 c1 : Bs4.Node) :
  Bs4.find_all "tr" soup = (pre ++ r :: post)%list ->
  Bs4.find_all "td" r = [c0; c1] ->
  let key := PyStr.replace ":" "" (PyStr.strip (Bs4.text c0)) in
  let value := PyStr.strip (Bs4.text c1) in
  (forall data : gmap string string,
     Convert.extract_row data r = <[key := value]> data)
  /\ ((forall r', r' ∈ post -> row_key r' <> Some key) ->
      Convert.extract_data soup !! key = Some value)
  /\ has_char ":" key = false
  /\ (has_char ":" (PyStr.strip (Bs4.text c0)) = false ->
      key = PyStr.strip (Bs4.text c0))
  /\ PyStr.replace ":" "" (PyStr.strip "Station ID:") = "Station ID".
Proof.
  intros Hrows Hcells key value.
  split; [| split; [| split; [| split]]].
  - intros data. apply extract_row_two_cells. exact Hcells.
  - intros Hpost. unfold Convert.extract_data. rewrite Hrows.
    rewrite fold_left_app. cbn [fold_left].
    rewrite (extract_rows_other post _ key Hpost).
    rewrite (extract_row_two_cells _ r c0 c1 Hcells).
    apply lookup_insert_eq.
  - apply replace_colon_has_no_colon.
  - apply replace_colon_id.
  - reflexivity.
Qed.

Lemma two_cell_row_sets_header_without_colons_witness :
  Convert.extract_data (document (sample_rows "Friday 2024")) !! "Station ID" = Some "S1".
Proof.
  destruct (two_cell_row_sets_header_without_colons
              (document (sample_rows "Friday 2024")) []
              (row "Station ID:" " S1 ")
              (tl (sample_rows "Friday 2024"))
              (Bs4.Tag "td" [Bs4.NavigableString "Station ID:"])
              (Bs4.Tag "td" [Bs4.NavigableString " S1 "]))
    as (_ & Hdata & _).
  - reflexivity.
  - reflexivity.
  - apply Hdata. intros r' Hin.
    repeat (apply elem_of_cons in Hin as [-> | Hin]; [vm_compute; discriminate |]).
    apply elem_of_nil in Hin. contradiction.
Defined.
